(** * uber.py: a project bootstrap and run helper

    A shallow embedding of [src/uber.py] and the properties of its
    [info] and [run] subcommands.

    The program reads two JSON documents, creates virtual environments,
    installs dependencies with pip and launches the project.  Its
    observable behaviour is the sequence of lines it prints and of child
    processes it starts; the embedding threads the outside world through
    every child process and records that sequence as a trace. *)

From Stdlib Require Import String Ascii ZArith List Bool Lia.
Import ListNotations.
Local Open Scope string_scope.
Local Open Scope list_scope.

(** ** Values produced by [json.load] *)

(** A Python float: not-a-number, an infinity, or the dyadic rational
    [m * 2^e] (both zeros are [FDyadic 0 _]). *)
Inductive pyfloat : Type :=
| FNan
| FInf (negative : bool)
| FDyadic (m e : Z).

(** What [json.load] can return.  [JNull] is Python's [None]; a [str] is
    a [string], one [ascii] per character; a [dict] keeps its insertion
    order as an association list (the parser leaves no duplicate key,
    lookups take the first binding). *)
#[local] Unset Elimination Schemes.
Inductive json : Type :=
| JNull
| JBool (b : bool)
| JInt (z : Z)
| JFloat (f : pyfloat)
| JStr (s : string)
| JArr (l : list json)
| JObj (o : list (string * json)).
#[local] Set Elimination Schemes.

(** Python truth value, as tested by [if x], [not x] and [x and y]. *)
Definition truthy (v : json) : bool :=
  match v with
  | JNull => false
  | JBool b => b
  | JInt z => negb (Z.eqb z 0)
  | JFloat (FDyadic m _) => negb (Z.eqb m 0)
  | JFloat _ => true
  | JStr s => negb (String.eqb s EmptyString)
  | JArr l => match l with [] => false | _ :: _ => true end
  | JObj o => match o with [] => false | _ :: _ => true end
  end.

Fixpoint lookup (k : string) (o : list (string * json)) : option json :=
  match o with
  | [] => None
  | (k', v) :: rest => if String.eqb k k' then Some v else lookup k rest
  end.

Definition has_key (k : string) (o : list (string * json)) : bool :=
  match lookup k o with Some _ => true | None => false end.

(** [x is y or x == y] on two floats that came out of [json.load]: the
    decoder hands out one shared object for every NaN literal, so the
    identity test succeeds on it. *)
Definition float_same (a b : pyfloat) : bool :=
  match a, b with
  | FNan, FNan => true
  | FInf s, FInf s' => Bool.eqb s s'
  | FDyadic m e, FDyadic m' e' =>
      let lo := Z.min e e' in
      Z.eqb (m * 2 ^ (e - lo)) (m' * 2 ^ (e' - lo))
  | _, _ => false
  end.

(** [bool], [int] and [float] compare by numeric value. *)
Definition number_of (v : json) : option pyfloat :=
  match v with
  | JBool b => Some (FDyadic (if b then 1 else 0) 0)
  | JInt z => Some (FDyadic z 0)
  | JFloat f => Some f
  | _ => None
  end.

(** The comparison that [x in some_list] applies to each element. *)
Fixpoint py_same (a b : json) {struct a} : bool :=
  match a with
  | JNull => match b with JNull => true | _ => false end
  | JStr s => match b with JStr s' => String.eqb s s' | _ => false end
  | JArr l =>
      match b with
      | JArr l' =>
          (fix all2 (xs ys : list json) {struct xs} : bool :=
             match xs, ys with
             | [], [] => true
             | x :: xs', y :: ys' => py_same x y && all2 xs' ys'
             | _, _ => false
             end) l l'
      | _ => false
      end
  | JObj o =>
      match b with
      | JObj o' =>
          Nat.eqb (length o) (length o') &&
          (fix sub (kvs : list (string * json)) {struct kvs} : bool :=
             match kvs with
             | [] => true
             | (k, v) :: rest =>
                 match lookup k o' with
                 | Some v' => py_same v v'
                 | None => false
                 end && sub rest
             end) o
      | _ => false
      end
  | JBool _ | JInt _ | JFloat _ =>
      match number_of a, number_of b with
      | Some x, Some y => float_same x y
      | _, _ => false
      end
  end.

Fixpoint is_substring (sub s : string) : bool :=
  String.prefix sub s ||
  match s with
  | EmptyString => false
  | String _ s' => is_substring sub s'
  end.

Fixpoint characters (s : string) : list json :=
  match s with
  | EmptyString => []
  | String c s' => JStr (String c EmptyString) :: characters s'
  end.

(** ** Paths, child processes, exceptions, output *)

(** [os.path.join(a, b, ...)], kept as its list of components. *)
Inductive path : Type :=
| os_path_join (parts : list string).

(** One piece of an f-string: literal text or an interpolated value. *)
Inductive piece : Type :=
| Lit (s : string)
| Val (v : json)
| PathVal (p : path).

Definition fstring : Type := list piece.

(** The four calls of [subprocess.run] in [run_command]. *)
Inductive command : Type :=
| VenvCreate (venv_name : json)
    (* [sys.executable, "-m", "venv", venv_name], check=True *)
| PipShow (pip_executable : path) (package : string)
    (* [pip_executable, "show", package], check=True, capture_output=True *)
| PipInstall (pip_executable : path) (requirement : fstring)
    (* [pip_executable, "install", requirement], check=True *)
| Shell (executable : option string) (run_command : fstring).
    (* run_command, shell=True, [executable=...,] check=True *)

(** How a child process ends: it exits with a return code, or it could
    not be started at all ([subprocess.run] then raises something other
    than [CalledProcessError]). *)
Inductive proc_result : Type :=
| Completed (returncode : Z)
| NotStarted.

Inductive exn : Type :=
| AttributeError
| TypeError
| CalledProcessError (cmd : command) (returncode : Z)
| SpawnError
| ReadError.

(** One piece of a printed line. *)
Inductive out : Type :=
| Str (s : string)
| Fmt (v : json)
| FmtPath (p : path)
| FmtExn (e : exn).

Inductive event : Type :=
| Print (line : list out)
| PrintHelp
| Exec (c : command) (r : proc_result).

Definition trace : Type := list event.

Definition ESC : string := String "027"%char EmptyString.
Definition RED : string := (ESC ++ "[91m")%string.
Definition YELLOW : string := (ESC ++ "[93m")%string.
Definition GREEN : string := (ESC ++ "[92m")%string.
Definition RESET : string := (ESC ++ "[0m")%string.
Definition dquote : string := String "034"%char EmptyString.

(** ** Results of Python operations that can raise *)

Inductive result (A : Type) : Type :=
| Ok (a : A)
| Raise (e : exn).
Arguments Ok {A} a.
Arguments Raise {A} e.

(** [d.get(key, default)]: only a [dict] has the method. *)
Definition dict_get (d : json) (key : string) (default : json) : result json :=
  match d with
  | JObj o => Ok (match lookup key o with Some v => v | None => default end)
  | _ => Raise AttributeError
  end.

(** [d.items()] *)
Definition dict_items (d : json) : result (list (string * json)) :=
  match d with
  | JObj o => Ok o
  | _ => Raise AttributeError
  end.

(** [for x in v]: the keys of a [dict], the elements of a [list], the
    characters of a [str]; nothing else is iterable. *)
Definition py_iter (v : json) : result (list json) :=
  match v with
  | JObj o => Ok (map (fun kv => JStr (fst kv)) o)
  | JArr l => Ok l
  | JStr s => Ok (characters s)
  | _ => Raise TypeError
  end.

(** [x in v]: a key test on a [dict] (the key must be hashable), an
    element test on a [list], a substring test on a [str]. *)
Definition py_in (x v : json) : result bool :=
  match v with
  | JObj o =>
      match x with
      | JArr _ | JObj _ => Raise TypeError
      | JStr s => Ok (has_key s o)
      | _ => Ok false
      end
  | JArr l => Ok (existsb (py_same x) l)
  | JStr s =>
      match x with
      | JStr sub => Ok (is_substring sub s)
      | _ => Raise TypeError
      end
  | _ => Raise TypeError
  end.

(** [venv_name == "test-venv"] *)
Definition is_test_venv (venv_name : json) : bool :=
  match venv_name with
  | JStr s => String.eqb s "test-venv"
  | _ => false
  end.

(** [os.path.join(venv_name, ...)] raises on anything but a [str]. *)
Definition join_under (venv_name : json) (rest : list string) : result path :=
  match venv_name with
  | JStr s => Ok (os_path_join (s :: rest))
  | _ => Raise TypeError
  end.

(** ** Inputs of one invocation *)

(** What [open] followed by [json.load] does on a configuration file. *)
Inductive load : Type :=
| Loaded (v : json)
| FileNotFoundError
| JSONDecodeError
| OtherReadError.

(** [args.command] after [parser.parse_args()]. *)
Inductive subcommand : Type :=
| CmdInfo
| CmdRun
| CmdNone.

(** How a loop body hands control back: fall through or [continue] to
    the next iteration, or [return] from [run_command]. *)
Inductive ctl : Type :=
| Next
| Return.

(** ** Two worlds to run the program in *)

(** A scripted world answers the child processes in order from a list and
    lets every later one succeed. *)
Definition scripted : Type := list proc_result.

Definition scripted_run (c : command) (w : scripted) : proc_result * scripted :=
  match w with
  | [] => (Completed 0, [])
  | r :: w' => (r, w')
  end.

(** A disk remembers which environments exist and which packages each
    holds: creating an environment succeeds whether or not it is there
    already, [pip show] succeeds exactly on an installed package, and
    [pip install] installs. *)
Record disk : Type := mkDisk {
  envs : list string;
  packages : list (string * string)
}.

Definition env_exists (n : string) (d : disk) : bool :=
  existsb (String.eqb n) (envs d).

Definition package_installed (n p : string) (d : disk) : bool :=
  existsb (fun np => String.eqb n (fst np) && String.eqb p (snd np)) (packages d).

Definition disk_run (c : command) (d : disk) : proc_result * disk :=
  match c with
  | VenvCreate (JStr n) =>
      (Completed 0,
       if env_exists n d then d else mkDisk (n :: envs d) (packages d))
  | VenvCreate _ => (NotStarted, d)
  | PipShow (os_path_join (n :: _)) p =>
      if env_exists n d
      then (Completed (if package_installed n p d then 0 else 1), d)
      else (NotStarted, d)
  | PipInstall (os_path_join (n :: _)) (Val (JStr p) :: _) =>
      if env_exists n d
      then (Completed 0, mkDisk (envs d) ((n, p) :: packages d))
      else (NotStarted, d)
  | PipShow _ _ | PipInstall _ _ => (NotStarted, d)
  | Shell _ _ => (Completed 0, d)
  end.


(** ** Sample configurations *)

(** A project with one main environment, the reserved environment, one
    pinned dependency and one dependency that targets no declared
    environment. *)
Definition sample_project : json :=
  JObj [("project-info", JObj [("project-name", JStr "demo")]);
        ("venv-configs",
         JObj [("env-a", JObj [("main", JBool true)]);
               ("test-venv", JObj [])]);
        ("dependencies",
         JObj [("requests",
                JObj [("venv", JStr "env-a"); ("version", JStr "2.31.0")]);
               ("orphan", JObj [("venv", JStr "nowhere")])])].

(** A project whose environments are all unflagged. *)
Definition unflagged_project : json :=
  JObj [("venv-configs",
         JObj [("env-a", JObj []); ("env-b", JObj [("main", JBool false)])])].

(** A project whose main environment has the empty name. *)
Definition nameless_project : json :=
  JObj [("venv-configs", JObj [(EmptyString, JObj [("main", JBool true)])])].

(** A tool configuration that silences errors and information. *)
Definition quiet_tool : json :=
  JObj [("ignore", JObj [("warnings", JBool false); ("errors", JBool true);
                         ("info", JBool true)])].

(** A tool configuration that silences nothing the program consults. *)
Definition loud_tool : json :=
  JObj [("ignore", JObj [("warnings", JBool true)])].

(** A project with one main environment and one pinned dependency. *)
Definition plain_project : json :=
  JObj [("venv-configs", JObj [("env-a", JObj [("main", JBool true)])]);
        ("dependencies",
         JObj [("requests",
                JObj [("venv", JStr "env-a"); ("version", JStr "2.31.0")])])].

Definition empty_disk : disk := mkDisk [] [].

(** A project with three environments, the reserved one in the middle. *)
Definition three_envs_project : json :=
  JObj [("venv-configs",
         JObj [("env-a", JObj []); ("test-venv", JObj []);
               ("env-b", JObj [("main", JBool true)])])].

(** ** The program *)

(** A run ends with an outcome, a trace and a world. *)
Definition outcome_of {A W : Type} (x : result A * trace * W) : result A :=
  fst (fst x).

Definition trace_of {A W : Type} (x : result A * trace * W) : trace :=
  snd (fst x).

Definition world_of {A W : Type} (x : result A * trace * W) : W :=
  snd x.

Section Uber.

(** The outside world: its states, and what starting a child process
    does to it. *)
Variable World : Type.
Variable spawn : command -> World -> proc_result * World.

(** [os.name == 'nt'] *)
Variable nt : bool.

(** [os.path.dirname(os.path.abspath(__file__))] *)
Variable script_dir : string.

(** A computation runs in a world and ends by returning or raising;
    either way what it printed and started stays in the trace. *)
Definition M (A : Type) : Type := World -> result A * trace * World.

Definition ret {A : Type} (a : A) : M A := fun w => (Ok a, [], w).

Definition raise {A : Type} (e : exn) : M A := fun w => (Raise e, [], w).

Definition bind {A B : Type} (m : M A) (k : A -> M B) : M B :=
  fun w =>
    match m w with
    | (Ok a, t, w') =>
        match k a w' with
        | (r, t', w'') => (r, t ++ t', w'')
        end
    | (Raise e, t, w') => (Raise e, t, w')
    end.

Notation "x <- m ;; k" := (bind m (fun x => k))
  (at level 61, m at next level, right associativity).
Notation "m ;; k" := (bind m (fun _ => k))
  (at level 61, right associativity).

Definition lift {A : Type} (r : result A) : M A := fun w => (r, [], w).

Definition print (line : list out) : M unit :=
  fun w => (Ok tt, [Print line], w).

Definition when (b : bool) (m : M unit) : M unit :=
  if b then m else ret tt.

(** [subprocess.run(c, check=True)] *)
Definition subprocess_run (c : command) : M unit :=
  fun w =>
    match spawn c w with
    | (Completed rc, w') =>
        if Z.eqb rc 0
        then (Ok tt, [Exec c (Completed rc)], w')
        else (Raise (CalledProcessError c rc), [Exec c (Completed rc)], w')
    | (NotStarted, w') => (Raise SpawnError, [Exec c NotStarted], w')
    end.

(** [try: m  except subprocess.CalledProcessError as e: handler e] *)
Definition try_except {A : Type} (m : M A) (handler : exn -> M A) : M A :=
  fun w =>
    match m w with
    | (Raise (CalledProcessError c rc), t, w') =>
        match handler (CalledProcessError c rc) w' with
        | (r, t', w'') => (r, t ++ t', w'')
        end
    | other => other
    end.

(** A [for] loop whose body may [return] from the enclosing function. *)
Fixpoint for_each {A : Type} (body : A -> M ctl) (l : list A) : M ctl :=
  match l with
  | [] => ret Next
  | x :: l' =>
      c <- body x ;;
      match c with
      | Next => for_each body l'
      | Return => ret Return
      end
  end.

(** *** The configuration loaders *)

Definition read_uber_config (file : load) : M json :=
  let config_file_path := os_path_join [script_dir; "uber-config"] in
  match file with
  | Loaded v => ret v
  | FileNotFoundError =>
      print [Str RED; Str "Error [1]: Configuration file '";
             FmtPath config_file_path; Str "' not found."; Str RESET] ;;
      ret JNull
  | JSONDecodeError =>
      print [Str RED; Str "Error [2]: Invalid JSON format in '";
             FmtPath config_file_path; Str "'."; Str RESET] ;;
      ret JNull
  | OtherReadError => raise ReadError
  end.

Definition read_project_config (dir_path : string) (file : load) : M json :=
  let config_file_path := os_path_join [dir_path; "uber"] in
  match file with
  | Loaded v => ret v
  | FileNotFoundError =>
      print [Str RED; Str "Error [7]: Project configuration file '";
             FmtPath config_file_path; Str "' not found."; Str RESET] ;;
      ret JNull
  | JSONDecodeError =>
      print [Str RED; Str "Error [8]: Invalid JSON format in '";
             FmtPath config_file_path; Str "'."; Str RESET] ;;
      ret JNull
  | OtherReadError => raise ReadError
  end.

(** *** Finding the main environment *)

(** The loop of lines 50-54 and 124-128: [main_venv] stays [None] unless
    some entry has a true [main], and the first such entry wins. *)
Fixpoint find_main (items : list (string * json)) : result json :=
  match items with
  | [] => Ok JNull
  | (venv_name, venv_config) :: rest =>
      match dict_get venv_config "main" (JBool false) with
      | Raise e => Raise e
      | Ok flag => if truthy flag then Ok (JStr venv_name) else find_main rest
      end
  end.

(** *** The [info] subcommand *)

(** The line of [info] that names the main environment. *)
Definition main_venv_line (main_venv : json) : list out :=
  [Str "Main Venv: "; Fmt main_venv].

Definition info_command (project_config : json) : M unit :=
  if negb (truthy project_config) then ret tt else
  project_info <- lift (dict_get project_config "project-info" (JObj [])) ;;
  project_name <- lift (dict_get project_info "project-name" (JStr "unknown_project")) ;;
  project_source <- lift (dict_get project_info "project-source" (JStr "main.py")) ;;
  version <- lift (dict_get project_info "version" (JStr "1.0")) ;;
  venv_configs <- lift (dict_get project_config "venv-configs" (JObj [])) ;;
  items <- lift (dict_items venv_configs) ;;
  main_venv <- lift (find_main items) ;;
  print [Str "Project Name: "; Fmt project_name] ;;
  print [Str "Project Source: "; Fmt project_source] ;;
  print [Str "Version: "; Fmt version] ;;
  when (truthy main_venv) (print (main_venv_line main_venv)).

(** *** The [run] subcommand *)

(** The coloured lines of [run]. *)
Definition info_test_venv : list out :=
  [Str YELLOW; Str "INFO: Ignoring creation of 'test-venv'."; Str RESET].

Definition error3 (venv_name : json) (e : exn) : list out :=
  [Str RED; Str "Error [3]: Error creating virtual environment '";
   Fmt venv_name; Str "': "; FmtExn e; Str RESET].

Definition error4 (package : string) (venv_name : json) (e : exn) : list out :=
  [Str RED; Str "Error [4]: Error installing "; Fmt (JStr package);
   Str " in "; Fmt venv_name; Str ": "; FmtExn e; Str RESET].

Definition error5 (e : exn) : list out :=
  [Str RED; Str "Error [5]: Error running project: "; FmtExn e; Str RESET].

Definition error6 : list out :=
  [Str RED;
   Str "Error [6]: No main virtual environment defined to run the project.";
   Str RESET].

Definition info_installed (package : string) (venv_name : json) : list out :=
  [Str YELLOW; Str "INFO: Dependency '"; Fmt (JStr package);
   Str "' already installed in '"; Fmt venv_name; Str "'. Skipping.";
   Str RESET].

(** Body of the loop of lines 76-89. *)
Definition create_venv (ignore_errors ignore_info venv_name : json) : M ctl :=
  if is_test_venv venv_name then
    when (negb (truthy ignore_info)) (print info_test_venv) ;;
    ret Next
  else
    print [Str "Creating virtual environment: "; Fmt venv_name] ;;
    try_except
      (subprocess_run (VenvCreate venv_name) ;;
       print [Str "Virtual environment '"; Fmt venv_name;
              Str "' created successfully."] ;;
       ret Next)
      (fun e =>
         when (negb (truthy ignore_errors)) (print (error3 venv_name e)) ;;
         ret Return).

(** The requirement handed to [pip install]: pinned with [==] when a
    version is given. *)
Definition pip_requirement (package : string) (package_version : json) : fstring :=
  if truthy package_version
  then [Val (JStr package); Lit "=="; Val package_version]
  else [Val (JStr package)].

(** Body of the loop of lines 92-121. *)
Definition install_dependency (venv_configs ignore_errors ignore_info : json)
    (entry : string * json) : M ctl :=
  let (package, details) := entry in
  venv_name <- lift (dict_get details "venv" JNull) ;;
  package_version <- lift (dict_get details "version" JNull) ;;
  declared <- (if truthy venv_name
               then lift (py_in venv_name venv_configs)
               else ret false) ;;
  if declared then
    pip_executable <-
      lift (join_under venv_name
              (if nt then ["Scripts"; "pip.exe"] else ["bin"; "pip"])) ;;
    present <-
      try_except
        (subprocess_run (PipShow pip_executable package) ;;
         when (negb (truthy ignore_info))
              (print (info_installed package venv_name)) ;;
         ret true)
        (fun _ => ret false) ;;
    if present then ret Next
    else
      print [Str "Installing "; Fmt (JStr package); Str " in "; Fmt venv_name] ;;
      let install_command :=
        PipInstall pip_executable (pip_requirement package package_version) in
      try_except
        (subprocess_run install_command ;;
         print [Str "Successfully installed "; Fmt (JStr package);
                Str " in "; Fmt venv_name; Str "."] ;;
         ret Next)
        (fun e =>
           when (negb (truthy ignore_errors))
                (print (error4 package venv_name e)) ;;
           ret Return)
  else ret Next.

(** Lines 124-149. *)
Definition run_project (venv_configs project_source ignore_errors : json) : M unit :=
  items <- lift (dict_items venv_configs) ;;
  main_venv <- lift (find_main items) ;;
  if truthy main_venv then
    if nt then
      activate_script <- lift (join_under main_venv ["Scripts"; "activate"]) ;;
      let run_command :=
        [Lit dquote; PathVal activate_script;
         Lit (dquote ++ " && python " ++ dquote)%string;
         Val project_source; Lit dquote] in
      try_except
        (subprocess_run (Shell None run_command))
        (fun e => when (negb (truthy ignore_errors)) (print (error5 e)))
    else
      activate_script <- lift (join_under main_venv ["bin"; "activate"]) ;;
      let run_command :=
        [Lit ("source " ++ dquote)%string; PathVal activate_script;
         Lit (dquote ++ " && python " ++ dquote)%string;
         Val project_source; Lit dquote] in
      try_except
        (subprocess_run (Shell (Some "/bin/bash") run_command))
        (fun e => when (negb (truthy ignore_errors)) (print (error5 e)))
  else when (negb (truthy ignore_errors)) (print error6).

Definition run_command (project_config uber_config : json) (dir_path : string)
    : M unit :=
  if negb (truthy project_config) then ret tt else
  venv_configs <- lift (dict_get project_config "venv-configs" (JObj [])) ;;
  dependencies <- lift (dict_get project_config "dependencies" (JObj [])) ;;
  project_info <- lift (dict_get project_config "project-info" (JObj [])) ;;
  project_source <- lift (dict_get project_info "project-source" (JStr "main.py")) ;;
  ignore <- lift (dict_get uber_config "ignore" (JObj [])) ;;
  ignore_warnings <- lift (dict_get ignore "warnings" (JBool false)) ;;
  ignore_errors <- lift (dict_get ignore "errors" (JBool false)) ;;
  ignore_info <- lift (dict_get ignore "info" (JBool false)) ;;
  venv_names <- lift (py_iter venv_configs) ;;
  c <- for_each (create_venv ignore_errors ignore_info) venv_names ;;
  match c with
  | Return => ret tt
  | Next =>
      entries <- lift (dict_items dependencies) ;;
      c <- for_each (install_dependency venv_configs ignore_errors ignore_info)
                    entries ;;
      match c with
      | Return => ret tt
      | Next => run_project venv_configs project_source ignore_errors
      end
  end.

(** *** The dispatcher *)

Definition main (dir_path : string) (command : subcommand)
    (uber_file project_file : load) : M unit :=
  uber_config <- read_uber_config uber_file ;;
  project_config <- read_project_config dir_path project_file ;;
  match command with
  | CmdInfo => info_command project_config
  | CmdRun => run_command project_config uber_config dir_path
  | CmdNone => fun w => (Ok tt, [PrintHelp], w)
  end.

(** The exit status of the interpreter: 0 when [main] returns, 1 when
    an exception escapes it. *)
Definition exit_status {A : Type} (r : result A) : Z :=
  match r with
  | Ok _ => 0
  | Raise _ => 1
  end.

(** ** Reading traces *)

(** Which child process an event records. *)
Definition is_exec (e : event) : bool :=
  match e with
  | Exec _ _ => true
  | _ => false
  end.

Definition is_create (e : event) : bool :=
  match e with
  | Exec (VenvCreate _) _ => true
  | _ => false
  end.

Definition is_probe (e : event) : bool :=
  match e with
  | Exec (PipShow _ _) _ => true
  | _ => false
  end.

Definition is_install (e : event) : bool :=
  match e with
  | Exec (PipInstall _ _) _ => true
  | _ => false
  end.

Definition is_launch (e : event) : bool :=
  match e with
  | Exec (Shell _ _) _ => true
  | _ => false
  end.

(** No event of the trace satisfies [p]. *)
Definition never (p : event -> bool) (t : trace) : bool :=
  forallb (fun e => negb (p e)) t.

(** A child process that lets the pipeline go on: any that exits with
    status 0, and a presence probe whatever its exit status. *)
Definition exec_ok (e : event) : bool :=
  match e with
  | Exec (PipShow _ _) (Completed _) => true
  | Exec _ (Completed rc) => Z.eqb rc 0
  | Exec _ NotStarted => false
  | _ => true
  end.

(** No child process of the trace stopped the pipeline. *)
Definition clean (t : trace) : bool := forallb exec_ok t.

(** The flags as [run_command] reads them on lines 70-73. *)
Definition ignore_flag (uber_config : json) (flag : string) : json :=
  match dict_get uber_config "ignore" (JObj []) with
  | Ok ignore =>
      match dict_get ignore flag (JBool false) with
      | Ok v => v
      | Raise _ => JBool false
      end
  | Raise _ => JBool false
  end.

(** The exception that escaped, if any. *)
Definition raised {A : Type} (r : result A) : option exn :=
  match r with
  | Ok _ => None
  | Raise e => Some e
  end.

(** What may follow a child process that did not let the pipeline go
    on: nothing when it could not be started (the exception escapes),
    otherwise at most the error line, and the function returns. *)
Definition abort_tail (ignore_errors : json) (o : option exn)
    (c : command) (r : proc_result) (t : trace) : Prop :=
  match r with
  | NotStarted => o = Some SpawnError /\ t = []
  | Completed rc =>
      o = None /\
      exists line,
        t = (if truthy ignore_errors then [] else [Print line]) /\
        match c with
        | VenvCreate n => line = error3 n (CalledProcessError c rc)
        | PipInstall _ _ =>
            exists package venv_name,
              line = error4 package venv_name (CalledProcessError c rc)
        | Shell _ _ => line = error5 (CalledProcessError c rc)
        | PipShow _ _ => True
        end
  end.

(** A trace stops at its first child process that does not let the
    pipeline go on. *)
Fixpoint disciplined (ignore_errors : json) (o : option exn) (t : trace) : Prop :=
  match t with
  | [] => True
  | Exec c r :: t' =>
      if exec_ok (Exec c r)
      then disciplined ignore_errors o t'
      else abort_tail ignore_errors o c r t'
  | _ :: t' => disciplined ignore_errors o t'
  end.

Definition stops_at_failure {A : Type} (ie : json)
    (x : result A * trace * World) : Prop :=
  disciplined ie (raised (outcome_of x)) (trace_of x).

(** A loop body that falls through has started only processes that let
    the pipeline go on. *)
Definition clean_when_next (x : result ctl * trace * World) : Prop :=
  outcome_of x = Ok Next -> clean (trace_of x) = true.

(** The configuration as lines 67-76 read it, before the first child
    process: [venv_configs], [dependencies], [project_source],
    [ignore_errors], [ignore_info] and the names the first loop visits. *)
Definition settings (project_config uber_config : json)
    : result (json * json * json * json * json * list json) :=
  match dict_get project_config "venv-configs" (JObj []) with
  | Raise e => Raise e
  | Ok venv_configs =>
  match dict_get project_config "dependencies" (JObj []) with
  | Raise e => Raise e
  | Ok dependencies =>
  match dict_get project_config "project-info" (JObj []) with
  | Raise e => Raise e
  | Ok project_info =>
  match dict_get project_info "project-source" (JStr "main.py") with
  | Raise e => Raise e
  | Ok project_source =>
  match dict_get uber_config "ignore" (JObj []) with
  | Raise e => Raise e
  | Ok ignore =>
  match dict_get ignore "warnings" (JBool false) with
  | Raise e => Raise e
  | Ok ignore_warnings =>
  match dict_get ignore "errors" (JBool false) with
  | Raise e => Raise e
  | Ok ignore_errors =>
  match dict_get ignore "info" (JBool false) with
  | Raise e => Raise e
  | Ok ignore_info =>
  match py_iter venv_configs with
  | Raise e => Raise e
  | Ok venv_names =>
      Ok (venv_configs, dependencies, project_source,
          ignore_errors, ignore_info, venv_names)
  end end end end end end end end end.

(** Lines 76-149 once the configuration is read. *)
Definition pipeline (venv_configs dependencies project_source
    ignore_errors ignore_info : json) (venv_names : list json) : M unit :=
  c <- for_each (create_venv ignore_errors ignore_info) venv_names ;;
  match c with
  | Return => ret tt
  | Next =>
      entries <- lift (dict_items dependencies) ;;
      c <- for_each (install_dependency venv_configs ignore_errors ignore_info)
                    entries ;;
      match c with
      | Return => ret tt
      | Next => run_project venv_configs project_source ignore_errors
      end
  end.

(** ** Configurations of the documented shape *)

(** A [dict]; a value that can be a key of one. *)
Definition is_dict (v : json) : bool :=
  match v with
  | JObj _ => true
  | _ => false
  end.

Definition hashable (v : json) : bool :=
  match v with
  | JArr _ | JObj _ => false
  | _ => true
  end.

(** The tool configuration is an object whose [ignore], when present, is
    an object. *)
Definition wf_tool (uber_config : json) : bool :=
  match dict_get uber_config "ignore" (JObj []) with
  | Ok ignore => is_dict ignore
  | Raise _ => false
  end.

(** A dependency entry is an object whose [venv], when present, is a
    scalar. *)
Definition wf_dependency (entry : string * json) : bool :=
  match dict_get (snd entry) "venv" JNull with
  | Ok venv_name => hashable venv_name
  | Raise _ => false
  end.

(** [venv-configs] is an object of objects; [dependencies] is an object
    of dependency entries. *)
Definition wf_venvs (venv_configs : json) : bool :=
  match venv_configs with
  | JObj o => forallb (fun kv => is_dict (snd kv)) o
  | _ => false
  end.

Definition wf_dependencies (dependencies : json) : bool :=
  match dependencies with
  | JObj o => forallb wf_dependency o
  | _ => false
  end.

(** The project configuration is an object; [project-info] is an object,
    [venv-configs] an object of objects and [dependencies] an object of
    dependency entries, each when present. *)
Definition wf_project (project_config : json) : bool :=
  match dict_get project_config "project-info" (JObj []),
        dict_get project_config "venv-configs" (JObj []),
        dict_get project_config "dependencies" (JObj []) with
  | Ok project_info, Ok venv_configs, Ok dependencies =>
      is_dict project_info && wf_venvs venv_configs &&
      wf_dependencies dependencies
  | _, _, _ => false
  end.

(** [venv_config.get("main", False)] is true. *)
Definition flagged_main (venv_config : json) : bool :=
  match dict_get venv_config "main" (JBool false) with
  | Ok flag => truthy flag
  | Raise _ => false
  end.

(** No entry of [venv-configs] is flagged [main]. *)
Definition no_main (project_config : json) : bool :=
  match dict_get project_config "venv-configs" (JObj []) with
  | Ok (JObj o) => forallb (fun kv => negb (flagged_main (snd kv))) o
  | _ => true
  end.

(** The child process of an event, if any, could be started. *)
Definition started (e : event) : bool :=
  match e with
  | Exec _ NotStarted => false
  | _ => true
  end.

Definition all_started (t : trace) : bool := forallb started t.

(** What the loaders hand to the dispatcher, and what they print. *)
Definition config_of (file : load) : json :=
  match file with
  | Loaded v => v
  | _ => JNull
  end.

(** Reading the file raises nothing the loader does not catch. *)
Definition readable (file : load) : bool :=
  match file with
  | OtherReadError => false
  | _ => true
  end.

(** The shell command of lines 131-143. *)
Definition launch_command (main_venv : string) (project_source : json) : command :=
  if nt then
    Shell None
      [Lit dquote; PathVal (os_path_join [main_venv; "Scripts"; "activate"]);
       Lit (dquote ++ " && python " ++ dquote)%string;
       Val project_source; Lit dquote]
  else
    Shell (Some "/bin/bash")
      [Lit ("source " ++ dquote)%string;
       PathVal (os_path_join [main_venv; "bin"; "activate"]);
       Lit (dquote ++ " && python " ++ dquote)%string;
       Val project_source; Lit dquote].

(** ** What each phase can put in the trace *)

(** The events of the creation loop, of the installation loop and of
    the runner. *)
Inductive create_event (ignore_errors ignore_info : json) : event -> Prop :=
| create_skipped :
    truthy ignore_info = false ->
    create_event ignore_errors ignore_info (Print info_test_venv)
| create_announced venv_name :
    create_event ignore_errors ignore_info
      (Print [Str "Creating virtual environment: "; Fmt venv_name])
| create_run venv_name r :
    is_test_venv venv_name = false ->
    create_event ignore_errors ignore_info (Exec (VenvCreate venv_name) r)
| create_done venv_name :
    create_event ignore_errors ignore_info
      (Print [Str "Virtual environment '"; Fmt venv_name;
              Str "' created successfully."])
| create_failed venv_name e :
    truthy ignore_errors = false ->
    create_event ignore_errors ignore_info (Print (error3 venv_name e)).

Inductive install_event (ignore_errors ignore_info : json) : event -> Prop :=
| install_probe pip_executable package r :
    install_event ignore_errors ignore_info
      (Exec (PipShow pip_executable package) r)
| install_present package venv_name :
    truthy ignore_info = false ->
    install_event ignore_errors ignore_info
      (Print (info_installed package venv_name))
| install_announced package venv_name :
    install_event ignore_errors ignore_info
      (Print [Str "Installing "; Fmt (JStr package); Str " in "; Fmt venv_name])
| install_run pip_executable requirement r :
    install_event ignore_errors ignore_info
      (Exec (PipInstall pip_executable requirement) r)
| install_done package venv_name :
    install_event ignore_errors ignore_info
      (Print [Str "Successfully installed "; Fmt (JStr package);
              Str " in "; Fmt venv_name; Str "."])
| install_failed package venv_name e :
    truthy ignore_errors = false ->
    install_event ignore_errors ignore_info
      (Print (error4 package venv_name e)).

Inductive launch_event (ignore_errors : json) : event -> Prop :=
| launch_run executable run_command r :
    launch_event ignore_errors (Exec (Shell executable run_command) r)
| launch_failed e :
    truthy ignore_errors = false ->
    launch_event ignore_errors (Print (error5 e))
| launch_no_main :
    truthy ignore_errors = false ->
    launch_event ignore_errors (Print error6).

Definition run_event (ignore_errors ignore_info : json) (e : event) : Prop :=
  create_event ignore_errors ignore_info e \/
  install_event ignore_errors ignore_info e \/
  launch_event ignore_errors e.

(** Every environment creation of the trace succeeded. *)
Definition creations_succeed (t : trace) : bool :=
  forallb (fun e => negb (is_create e) || exec_ok e) t.

(** Every presence probe of the trace exited with status 0. *)
Definition probes_succeed (t : trace) : bool :=
  forallb (fun e => negb (is_probe e) || match e with
                                         | Exec _ (Completed rc) => Z.eqb rc 0
                                         | _ => false
                                         end) t.

(** The [venv] field of a dependency entry names no declared
    environment: it is absent, empty (any false value), or a string that
    is not a key of [venv-configs]. *)
Inductive undeclared (venv_configs : list (string * json)) : option json -> Prop :=
| venv_absent : undeclared venv_configs None
| venv_empty v : truthy v = false -> undeclared venv_configs (Some v)
| venv_unknown s :
    has_key s venv_configs = false -> undeclared venv_configs (Some (JStr s)).

(** Two objects agree on every key but one. *)
Definition same_but (key : string) (o1 o2 : list (string * json)) : Prop :=
  forall k, k <> key -> lookup k o1 = lookup k o2.

(** Two tool configurations differ only in the value of
    [ignore.warnings]. *)
Inductive differ_only_in_warnings : json -> json -> Prop :=
| differ_in_warnings o1 o2 ignore1 ignore2 :
    same_but "ignore" o1 o2 ->
    lookup "ignore" o1 = Some (JObj ignore1) ->
    lookup "ignore" o2 = Some (JObj ignore2) ->
    same_but "warnings" ignore1 ignore2 ->
    differ_only_in_warnings (JObj o1) (JObj o2).

(** [d.get(key, default)] on the bindings of a [dict]. *)
Definition get_or (o : list (string * json)) (key : string) (default : json) : json :=
  match lookup key o with
  | Some v => v
  | None => default
  end.

(** The name of the first entry, in iteration order, that is flagged
    [main]. *)
Definition first_main (venv_configs : list (string * json)) : option string :=
  option_map fst (find (fun kv => flagged_main (snd kv)) venv_configs).

(** The last line of [info]: the main environment, when one is flagged
    and its name is not empty. *)
Definition main_venv_report (venv_configs : list (string * json)) : trace :=
  match first_main venv_configs with
  | Some name =>
      if String.eqb name EmptyString then []
      else [Print (main_venv_line (JStr name))]
  | None => []
  end.

(** ** More ways to read a run *)

(** The child processes of a trace, in order, with their results. *)
Definition execs (t : trace) : trace := filter is_exec t.

(** What a run does beyond printing: how it ends, the child processes it
    started, and the world it leaves. *)
Definition effects {A : Type} (x : result A * trace * World)
    : result A * trace * World :=
  (outcome_of x, execs (trace_of x), world_of x).

(** The names handed to the [venv] processes of a trace, in order. *)
Definition creations (t : trace) : list json :=
  flat_map (fun e => match e with
                     | Exec (VenvCreate venv_name) _ => [venv_name]
                     | _ => []
                     end) t.

(** A printed line that opens with the given colour code. *)
Definition coloured (colour : string) (e : event) : bool :=
  match e with
  | Print (Str s :: _) => String.eqb s colour
  | _ => false
  end.

(** [pip_executable] for an environment, as line 97 builds it. *)
Definition pip_of (venv_name : string) : path :=
  os_path_join (venv_name :: if nt then ["Scripts"; "pip.exe"] else ["bin"; "pip"]).

(** A [pip] command that serves a dependency entry: the entry names an
    environment found in [venv-configs], the command runs that
    environment's pip, and it either probes the entry's package or
    installs it, pinned to the entry's version when one is given. *)
Definition serves (venv_configs : json) (entry : string * json) (c : command) : Prop :=
  exists venv_name package_version,
    dict_get (snd entry) "venv" JNull = Ok (JStr venv_name) /\
    py_in (JStr venv_name) venv_configs = Ok true /\
    dict_get (snd entry) "version" JNull = Ok package_version /\
    (c = PipShow (pip_of venv_name) (fst entry) \/
     c = PipInstall (pip_of venv_name)
           (pip_requirement (fst entry) package_version)).

(** An uncaught exception is a [CalledProcessError]. *)
Definition is_called_process_error {A : Type} (r : result A) : bool :=
  match r with
  | Raise (CalledProcessError _ _) => true
  | _ => false
  end.

(** The call that [main] dispatches to, lines 167-172. *)
Definition dispatch (dir_path : string) (command : subcommand)
    (uber_config project_config : json) : M unit :=
  match command with
  | CmdInfo => info_command project_config
  | CmdRun => run_command project_config uber_config dir_path
  | CmdNone => fun w => (Ok tt, [PrintHelp], w)
  end.

(** The lines of the two loaders. *)
Definition uber_error (code : string) (tail : string) : list out :=
  [Str RED; Str code; FmtPath (os_path_join [script_dir; "uber-config"]);
   Str tail; Str RESET].

Definition project_error (dir_path code tail : string) : list out :=
  [Str RED; Str code; FmtPath (os_path_join [dir_path; "uber"]);
   Str tail; Str RESET].

(** Every child process of the trace satisfies [p]. *)
Definition only (p : event -> bool) (t : trace) : bool :=
  forallb (fun e => negb (is_exec e) || p e) t.

(** Every pip process of the trace serves one of the given entries. *)
Definition pip_serves (venv_configs : json) (entries : list (string * json))
    (e : event) : Prop :=
  match e with
  | Exec c _ =>
      is_probe e || is_install e = true ->
      exists entry, In entry entries /\ serves venv_configs entry c
  | _ => True
  end.

(** Every installation of the trace comes right after a presence probe of
    the same package, by the same pip, that exited with a non-zero
    status, and the line that announces the installation. *)
Definition installs_follow_probes (t : trace) : Prop :=
  forall t1 pip_executable requirement r t2,
    t = t1 ++ Exec (PipInstall pip_executable requirement) r :: t2 ->
    exists t0 package rc venv_name package_version,
      t1 = t0 ++ [Exec (PipShow pip_executable package) (Completed rc);
                  Print [Str "Installing "; Fmt (JStr package); Str " in ";
                         Fmt venv_name]] /\
      rc <> 0%Z /\
      requirement = pip_requirement package package_version.

(** A presence probe that found its package. *)
Definition is_hit (e : event) : bool :=
  match e with
  | Exec (PipShow _ _) (Completed rc) => Z.eqb rc 0
  | _ => false
  end.

(** Right after every presence probe of the trace that found its
    package comes the line "already installed", unless [ignore.info] is
    set, and no installation of that package. *)
Definition hits_are_reported (ignore_info : json) (t : trace) : Prop :=
  forall t1 pip_executable package t2,
    t = t1 ++ Exec (PipShow pip_executable package) (Completed 0) :: t2 ->
    exists venv_name rest,
      t2 = (if truthy ignore_info then rest
            else Print (info_installed package venv_name) :: rest) /\
      match rest with
      | e :: _ => is_install e = false
      | [] => True
      end.


(** The trace does not open with an installation. *)
Definition starts_clean (t : trace) : Prop :=
  match t with
  | e :: _ => is_install e = false
  | [] => True
  end.
(** ** Running the monad *)

Lemma bind_run {A B : Type} (m : M A) (k : A -> M B) (w : World) :
  bind m k w =
  match m w with
  | (Ok a, t, w') => (outcome_of (k a w'), t ++ trace_of (k a w'), world_of (k a w'))
  | (Raise e, t, w') => (Raise e, t, w')
  end.
Proof.
  unfold bind, outcome_of, trace_of, world_of.
  destruct (m w) as [[[a | e] t] w']; [ | reflexivity ].
  destruct (k a w') as [[r t'] w'']; reflexivity.
Qed.

Lemma bind_lift_ok {A B : Type} (a : A) (k : A -> M B) (w : World) :
  bind (lift (Ok a)) k w = k a w.
Proof.
  unfold bind, lift. destruct (k a w) as [[r t] w']. reflexivity.
Qed.

Lemma bind_lift_raise {A B : Type} (e : exn) (k : A -> M B) (w : World) :
  bind (lift (Raise e)) k w = (Raise e, [], w).
Proof. reflexivity. Qed.

Lemma for_each_cons {A : Type} (body : A -> M ctl) (x : A) (l : list A) (w : World) :
  for_each body (x :: l) w =
  match body x w with
  | (Ok Next, t, w') =>
      (outcome_of (for_each body l w'), t ++ trace_of (for_each body l w'),
       world_of (for_each body l w'))
  | (Ok Return, t, w') => (Ok Return, t, w')
  | (Raise e, t, w') => (Raise e, t, w')
  end.
Proof.
  simpl. rewrite bind_run.
  destruct (body x w) as [[[[ | ] | e] t] w']; try reflexivity.
  unfold ret, outcome_of, trace_of, world_of; simpl. now rewrite app_nil_r.
Qed.

(** ** Traces stop at the first child process that fails *)

Lemma clean_app (t1 t2 : trace) :
  clean (t1 ++ t2) = clean t1 && clean t2.
Proof. apply forallb_app. Qed.

Lemma disciplined_clean ie o t : clean t = true -> disciplined ie o t.
Proof.
  induction t as [ | e t IH]; simpl; [ trivial | ].
  intros H. apply andb_prop in H. destruct H as [He Ht].
  destruct e; auto. simpl in He. rewrite He. auto.
Qed.

Lemma disciplined_app ie o t1 t2 :
  clean t1 = true -> disciplined ie o t2 -> disciplined ie o (t1 ++ t2).
Proof.
  induction t1 as [ | e t1 IH]; simpl; [ trivial | ].
  intros H D. apply andb_prop in H. destruct H as [He Ht].
  destruct e; auto. simpl in He. rewrite He. auto.
Qed.

Ltac run_monad :=
  unfold bind, try_except, subprocess_run, print, when, ret, lift, raise.

Ltac case_step :=
  match goal with
  | |- context [match spawn ?c ?w with _ => _ end] =>
      let rc := fresh "rc" in
      let w' := fresh "w'" in
      let E := fresh "E" in
      destruct (spawn c w) as [[rc | ] w'] eqn:E
  | |- context [if Z.eqb ?rc 0 then _ else _] =>
      let E := fresh "E" in destruct (Z.eqb rc 0) eqn:E
  | |- context [if truthy ?v then _ else _] =>
      let E := fresh "E" in destruct (truthy v) eqn:E
  | |- context [if negb (truthy ?v) then _ else _] =>
      let E := fresh "E" in destruct (truthy v) eqn:E
  end; simpl.

Ltac finish :=
  unfold stops_at_failure, clean_when_next, outcome_of, trace_of, world_of;
  simpl;
  repeat match goal with
    | H : ?x = _ |- context [?x] => rewrite H; simpl
    end;
  repeat split; intros; eauto; try discriminate; try congruence.

Lemma create_venv_disciplined ie ii n w :
  stops_at_failure ie (create_venv ie ii n w) /\
  (outcome_of (create_venv ie ii n w) = Ok Next <->
   clean (trace_of (create_venv ie ii n w)) = true).
Proof.
  unfold create_venv.
  destruct (is_test_venv n); run_monad; simpl; repeat case_step; finish.
Qed.

Lemma for_each_disciplined {A : Type} ie (body : A -> M ctl) :
  (forall x w, stops_at_failure ie (body x w) /\ clean_when_next (body x w)) ->
  forall l w,
    stops_at_failure ie (for_each body l w) /\ clean_when_next (for_each body l w).
Proof.
  intros Hbody l. induction l as [ | x l IH]; intros w.
  - simpl. finish.
  - rewrite for_each_cons.
    destruct (Hbody x w) as [D C].
    destruct (body x w) as [[[[ | ] | e] t] w'].
    + specialize (IH w'). destruct IH as [D' C'].
      unfold stops_at_failure, clean_when_next, outcome_of, trace_of in *.
      simpl in *. split.
      * apply disciplined_app; auto.
      * intros H. rewrite clean_app, C, C'; auto.
    + split; [ exact D | ]. unfold clean_when_next, outcome_of. simpl. discriminate.
    + split; [ exact D | ]. unfold clean_when_next, outcome_of. simpl. discriminate.
Qed.

Lemma install_dependency_disciplined vc ie ii entry w :
  stops_at_failure ie (install_dependency vc ie ii entry w) /\
  clean_when_next (install_dependency vc ie ii entry w).
Proof.
  unfold install_dependency. destruct entry as [package details].
  run_monad.
  destruct (dict_get details "venv" JNull) as [venv_name | e1]; [ | finish ].
  destruct (dict_get details "version" JNull) as [package_version | e2]; [ | finish ].
  destruct (truthy venv_name); [ | finish ].
  destruct (py_in venv_name vc) as [[ | ] | e3]; [ | finish | finish ].
  destruct (join_under venv_name _) as [pip_executable | e4]; [ | finish ].
  simpl. repeat case_step; finish.
  Unshelve. all: first [ exact EmptyString | exact JNull ].
Qed.

Lemma run_project_disciplined vc src ie w :
  stops_at_failure ie (run_project vc src ie w).
Proof.
  unfold run_project. run_monad.
  destruct (dict_items vc) as [items | e1]; [ | finish ].
  destruct (find_main items) as [main_venv | e2]; [ | finish ].
  simpl. destruct (truthy main_venv); [ | case_step; finish ].
  destruct nt.
  - destruct (join_under main_venv _) as [activate_script | e3]; [ | finish ].
    simpl. repeat case_step; finish.
  - destruct (join_under main_venv _) as [activate_script | e3]; [ | finish ].
    simpl. repeat case_step; finish.
Qed.

(** ** The shape of a run *)

Lemma run_command_settings pc uc dir w :
  truthy pc = true ->
  run_command pc uc dir w =
  match settings pc uc with
  | Raise e => (Raise e, [], w)
  | Ok (vc, deps, src, ie, ii, names) => pipeline vc deps src ie ii names w
  end.
Proof.
  intros T. unfold run_command, settings. rewrite T. simpl.
  repeat match goal with
    | |- context [bind (lift ?r) _ _] =>
        destruct r; [ rewrite bind_lift_ok | rewrite bind_lift_raise; reflexivity ]
    end.
  reflexivity.
Qed.

Lemma pipeline_run vc deps src ie ii names w :
  pipeline vc deps src ie ii names w =
  match for_each (create_venv ie ii) names w with
  | (Ok Next, t1, w1) =>
      match dict_items deps with
      | Raise e => (Raise e, t1, w1)
      | Ok entries =>
          match for_each (install_dependency vc ie ii) entries w1 with
          | (Ok Next, t2, w2) =>
              (outcome_of (run_project vc src ie w2),
               t1 ++ t2 ++ trace_of (run_project vc src ie w2),
               world_of (run_project vc src ie w2))
          | (Ok Return, t2, w2) => (Ok tt, t1 ++ t2, w2)
          | (Raise e, t2, w2) => (Raise e, t1 ++ t2, w2)
          end
      end
  | (Ok Return, t1, w1) => (Ok tt, t1, w1)
  | (Raise e, t1, w1) => (Raise e, t1, w1)
  end.
Proof.
  unfold pipeline. rewrite bind_run.
  destruct (for_each (create_venv ie ii) names w) as [[[[ | ] | e] t1] w1];
    unfold outcome_of, trace_of, world_of; simpl;
    [ | now rewrite app_nil_r | reflexivity ].
  destruct (dict_items deps) as [entries | e].
  - rewrite bind_lift_ok, bind_run.
    destruct (for_each (install_dependency vc ie ii) entries w1)
      as [[[[ | ] | e] t2] w2];
      unfold outcome_of, trace_of, world_of; simpl;
      [ reflexivity | now rewrite app_nil_r | reflexivity ].
  - rewrite bind_lift_raise. simpl. now rewrite app_nil_r.
Qed.

Lemma settings_flags pc uc vc deps src ie ii names :
  settings pc uc = Ok (vc, deps, src, ie, ii, names) ->
  ignore_flag uc "errors" = ie /\ ignore_flag uc "info" = ii /\
  dict_get pc "venv-configs" (JObj []) = Ok vc /\
  dict_get pc "dependencies" (JObj []) = Ok deps /\
  py_iter vc = Ok names.
Proof.
  unfold settings, ignore_flag.
  repeat match goal with
    | |- context [match ?r with Ok _ => _ | Raise _ => _ end] =>
        match r with
        | dict_get _ _ _ => destruct r eqn:?; [ | discriminate ]
        | py_iter _ => destruct r eqn:?; [ | discriminate ]
        end
    end.
  intros H. injection H as <- <- <- <- <- <-.
  repeat match goal with
    | H : ?x = Ok _ |- context [?x] => rewrite H
    end.
  auto.
Qed.

Lemma pipeline_disciplined vc deps src ie ii names w :
  stops_at_failure ie (pipeline vc deps src ie ii names w).
Proof.
  rewrite pipeline_run.
  destruct (for_each_disciplined ie (create_venv ie ii)
              (fun x w => conj (proj1 (create_venv_disciplined ie ii x w))
                               (proj1 (proj2 (create_venv_disciplined ie ii x w))))
              names w) as [D1 C1].
  destruct (for_each (create_venv ie ii) names w) as [[[[ | ] | e] t1] w1];
    try exact D1.
  specialize (C1 eq_refl). unfold trace_of in C1; simpl in C1.
  destruct (dict_items deps) as [entries | e];
    [ | now apply disciplined_clean ].
  destruct (for_each_disciplined ie (install_dependency vc ie ii)
              (install_dependency_disciplined vc ie ii) entries w1) as [D2 C2].
  pose proof (run_project_disciplined vc src ie) as D3.
  destruct (for_each (install_dependency vc ie ii) entries w1)
    as [[[[ | ] | e] t2] w2]; unfold stops_at_failure, outcome_of, trace_of in *;
    simpl in *.
  - apply disciplined_app; [ exact C1 | ].
    apply disciplined_app; [ now apply C2 | apply D3 ].
  - apply disciplined_app; assumption.
  - apply disciplined_app; assumption.
Qed.

Lemma run_command_disciplined pc uc dir w :
  stops_at_failure (ignore_flag uc "errors") (run_command pc uc dir w).
Proof.
  destruct (truthy pc) eqn:T.
  - rewrite run_command_settings by exact T.
    destruct (settings pc uc) as [[[[[[vc deps] src] ie] ii] names] | e] eqn:S;
      [ | exact I ].
    apply settings_flags in S. destruct S as [<- _].
    apply pipeline_disciplined.
  - unfold run_command. rewrite T. exact I.
Qed.

Lemma abort_tail_no_exec ie o c r t e :
  abort_tail ie o c r t -> In e t -> is_exec e = false.
Proof.
  unfold abort_tail. destruct r as [rc | ].
  - intros [_ [line [-> _]]] H. destruct (truthy ie); simpl in H.
    + contradiction.
    + destruct H as [<- | []]. reflexivity.
  - intros [_ ->] [].
Qed.

Lemma disciplined_at ie o t1 c r t2 :
  disciplined ie o (t1 ++ Exec c r :: t2) ->
  exec_ok (Exec c r) = false ->
  clean t1 = true /\ abort_tail ie o c r t2.
Proof.
  intros D Bad. induction t1 as [ | e t1 IH]; cbn [app disciplined] in D.
  - rewrite Bad in D. auto.
  - destruct e as [line | | c' r']; simpl; auto.
    destruct (exec_ok (Exec c' r')) eqn:Ok'.
    + simpl in Ok'. rewrite Ok'. auto.
    + exfalso.
      assert (is_exec (Exec c r) = false) as F; [ | discriminate F ].
      eapply abort_tail_no_exec; [ exact D | ].
      apply in_or_app. right. left. reflexivity.
Qed.

Lemma abort_tail_never ie o c r t p :
  (forall e, p e = true -> is_exec e = true) ->
  abort_tail ie o c r t -> never p t = true.
Proof.
  intros Hp A. unfold never. apply forallb_forall. intros e He.
  apply (abort_tail_no_exec _ _ _ _ _ _ A) in He.
  destruct (p e) eqn:P; [ | reflexivity ].
  apply Hp in P. congruence.
Qed.

Lemma unit_result (r : result unit) : raised r = None -> r = Ok tt.
Proof. destruct r as [[] | e]; simpl; [ reflexivity | discriminate ]. Qed.

Lemma raised_some_none {A : Type} (r : result A) :
  raised r = None -> exists a, r = Ok a.
Proof. destruct r; simpl; [ eauto | discriminate ]. Qed.

Lemma raised_some {A : Type} (r : result A) e : raised r = Some e -> r = Raise e.
Proof. destruct r; simpl; congruence. Qed.

(** ** The claims *)

(** C1. When the creation of an environment fails during [run], the
    pipeline stops there: after the failing [venv] process no child
    process is started at all (no creation, no presence probe, no
    installation, no launch).  When the process exited with a non-zero
    status, [run_command] returns and the rest of the trace is the line
    of Error [3], or nothing when [ignore.errors] is set; the flag
    changes nothing else.  When the process could not be started, the
    exception escapes and nothing follows. *)
Theorem creation_failure_aborts_run pc uc dir w t1 venv_name r t2 :
  trace_of (run_command pc uc dir w) = t1 ++ Exec (VenvCreate venv_name) r :: t2 ->
  r <> Completed 0 ->
  never is_create t2 = true /\ never is_probe t2 = true /\
  never is_install t2 = true /\ never is_launch t2 = true /\
  match r with
  | Completed rc =>
      outcome_of (run_command pc uc dir w) = Ok tt /\
      t2 = if truthy (ignore_flag uc "errors") then []
           else [Print (error3 venv_name
                          (CalledProcessError (VenvCreate venv_name) rc))]
  | NotStarted =>
      outcome_of (run_command pc uc dir w) = Raise SpawnError /\ t2 = []
  end.
Proof.
  intros Ht Hr.
  pose proof (run_command_disciplined pc uc dir w) as D.
  unfold stops_at_failure in D. rewrite Ht in D.
  apply disciplined_at in D.
  - destruct D as [_ A].
    repeat (split; [ eapply abort_tail_never; [ | exact A ];
                     intros [ | | [ ] ]; simpl; congruence | ]).
    destruct r as [rc | ]; simpl in A.
    + destruct A as [O [line [-> ->]]]. split; [ now apply unit_result | reflexivity ].
    + destruct A as [O ->]. split; [ now apply raised_some | reflexivity ].
  - destruct r as [rc | ]; simpl; [ | reflexivity ].
    apply Z.eqb_neq. congruence.
Qed.

(** C2. When the installation of a dependency fails during [run], the
    pipeline stops there: after the failing [pip install] process no
    child process is started at all (no probe or installation of a later
    dependency, no launch).  When the process exited with a non-zero
    status, [run_command] returns and the rest of the trace is the line
    of Error [4], or nothing when [ignore.errors] is set; the flag
    changes nothing else.  When the process could not be started, the
    exception escapes and nothing follows. *)
Theorem install_failure_aborts_run pc uc dir w t1 pip_executable requirement r t2 :
  trace_of (run_command pc uc dir w) =
    t1 ++ Exec (PipInstall pip_executable requirement) r :: t2 ->
  r <> Completed 0 ->
  never is_probe t2 = true /\ never is_install t2 = true /\
  never is_launch t2 = true /\ never is_create t2 = true /\
  match r with
  | Completed rc =>
      outcome_of (run_command pc uc dir w) = Ok tt /\
      exists package venv_name,
        t2 = if truthy (ignore_flag uc "errors") then []
             else [Print (error4 package venv_name
                            (CalledProcessError
                               (PipInstall pip_executable requirement) rc))]
  | NotStarted =>
      outcome_of (run_command pc uc dir w) = Raise SpawnError /\ t2 = []
  end.
Proof.
  intros Ht Hr.
  pose proof (run_command_disciplined pc uc dir w) as D.
  unfold stops_at_failure in D. rewrite Ht in D.
  apply disciplined_at in D.
  - destruct D as [_ A].
    repeat (split; [ eapply abort_tail_never; [ | exact A ];
                     intros [ | | [ ] ]; simpl; congruence | ]).
    destruct r as [rc | ]; simpl in A.
    + destruct A as [O [line [-> [package [venv_name ->]]]]].
      split; [ now apply unit_result | ]. exists package, venv_name. reflexivity.
    + destruct A as [O ->]. split; [ now apply raised_some | reflexivity ].
  - destruct r as [rc | ]; simpl; [ | reflexivity ].
    apply Z.eqb_neq. congruence.
Qed.

(** ** Progress of the loops *)

Lemma for_each_outcome {A : Type} (good : event -> bool) (R : result ctl -> Prop)
    (body : A -> M ctl) (l : list A) :
  R (Ok Next) ->
  (forall x, In x l -> forall w,
      forallb good (trace_of (body x w)) = true -> R (outcome_of (body x w))) ->
  forall w,
    forallb good (trace_of (for_each body l w)) = true ->
    R (outcome_of (for_each body l w)).
Proof.
  intros RN. induction l as [ | x l IH]; intros Hbody w; [ simpl; auto | ].
  rewrite for_each_cons.
  pose proof (Hbody x (or_introl eq_refl) w) as Hx.
  destruct (body x w) as [[[[ | ] | e] t] w'];
    unfold outcome_of, trace_of in *; cbn [fst snd] in *; auto.
  rewrite forallb_app. intros H. apply andb_prop in H. destruct H as [_ H].
  apply IH; [ | exact H ]. intros y Hy. apply Hbody. now right.
Qed.

Lemma create_venv_started ie ii n w :
  all_started (trace_of (create_venv ie ii n w)) = true ->
  exists c, outcome_of (create_venv ie ii n w) = Ok c.
Proof.
  unfold create_venv.
  destruct (is_test_venv n); run_monad; simpl; repeat case_step; finish.
Qed.

Lemma py_in_dict venv_name o :
  hashable venv_name = true ->
  exists b, py_in venv_name (JObj o) = Ok b /\
            (b = true -> exists s, venv_name = JStr s).
Proof.
  destruct venv_name; simpl; try discriminate; intros _;
    eexists; (split; [ reflexivity | ]); try discriminate.
  eauto.
Qed.

Lemma install_dependency_started o ie ii entry w :
  wf_dependency entry = true ->
  all_started (trace_of (install_dependency (JObj o) ie ii entry w)) = true ->
  exists c, outcome_of (install_dependency (JObj o) ie ii entry w) = Ok c.
Proof.
  unfold install_dependency, wf_dependency. destruct entry as [package details].
  run_monad. cbn [snd].
  destruct (dict_get details "venv" JNull) as [venv_name | e1] eqn:G; [ | discriminate ].
  intros Hh.
  assert (exists v, dict_get details "version" JNull = Ok v) as [package_version ->].
  { destruct details; try discriminate. simpl. eauto. }
  destruct (truthy venv_name); [ | finish ].
  destruct (py_in_dict venv_name o Hh) as [b [-> Hb]].
  destruct b; [ | finish ].
  destruct (Hb eq_refl) as [s ->]. simpl.
  repeat case_step; finish.
Qed.

Lemma install_dependency_progress o ie ii entry w :
  wf_dependency entry = true ->
  clean (trace_of (install_dependency (JObj o) ie ii entry w)) = true ->
  outcome_of (install_dependency (JObj o) ie ii entry w) = Ok Next.
Proof.
  unfold install_dependency, wf_dependency. destruct entry as [package details].
  run_monad. cbn [snd].
  destruct (dict_get details "venv" JNull) as [venv_name | e1] eqn:G; [ | discriminate ].
  intros Hh.
  assert (exists v, dict_get details "version" JNull = Ok v) as [package_version ->].
  { destruct details; try discriminate. simpl. eauto. }
  destruct (truthy venv_name); [ | finish ].
  destruct (py_in_dict venv_name o Hh) as [b [-> Hb]].
  destruct b; [ | finish ].
  destruct (Hb eq_refl) as [s ->]. simpl.
  repeat case_step; finish.
Qed.

Lemma create_loop_progress ie ii names w :
  clean (trace_of (for_each (create_venv ie ii) names w)) = true ->
  outcome_of (for_each (create_venv ie ii) names w) = Ok Next.
Proof.
  apply (for_each_outcome exec_ok (fun r => r = Ok Next)); [ reflexivity | ].
  intros n _ w0 H. now apply create_venv_disciplined.
Qed.

Lemma install_loop_progress o ie ii entries w :
  forallb wf_dependency entries = true ->
  clean (trace_of (for_each (install_dependency (JObj o) ie ii) entries w)) = true ->
  outcome_of (for_each (install_dependency (JObj o) ie ii) entries w) = Ok Next.
Proof.
  intros Wf.
  apply (for_each_outcome exec_ok (fun r => r = Ok Next)); [ reflexivity | ].
  intros entry Hin w0. apply install_dependency_progress.
  rewrite forallb_forall in Wf. now apply Wf.
Qed.

Lemma create_loop_started ie ii names w :
  all_started (trace_of (for_each (create_venv ie ii) names w)) = true ->
  exists c, outcome_of (for_each (create_venv ie ii) names w) = Ok c.
Proof.
  apply (for_each_outcome started (fun r => exists c, r = Ok c)); [ eauto | ].
  intros n _ w0. apply create_venv_started.
Qed.

Lemma install_loop_started o ie ii entries w :
  forallb wf_dependency entries = true ->
  all_started (trace_of (for_each (install_dependency (JObj o) ie ii) entries w)) = true ->
  exists c, outcome_of (for_each (install_dependency (JObj o) ie ii) entries w) = Ok c.
Proof.
  intros Wf.
  apply (for_each_outcome started (fun r => exists c, r = Ok c)); [ eauto | ].
  intros entry Hin w0. apply install_dependency_started.
  rewrite forallb_forall in Wf. now apply Wf.
Qed.

(** ** The runner *)

Lemma find_main_shape items v :
  find_main items = Ok v ->
  v = JNull \/ exists name, v = JStr name.
Proof.
  induction items as [ | [name config] items IH]; simpl.
  - intros H. injection H as <-. now left.
  - destruct (dict_get config "main" (JBool false)) as [flag | e]; [ | discriminate ].
    destruct (truthy flag); [ | exact IH ].
    intros H. injection H as <-. right. eauto.
Qed.

Lemma find_main_wf items :
  forallb (fun kv => is_dict (snd kv)) items = true ->
  exists v, find_main items = Ok v.
Proof.
  induction items as [ | [name config] items IH]; simpl; [ eauto | ].
  intros H. apply andb_prop in H. destruct H as [Hd Hrest].
  destruct config; try discriminate. simpl.
  destruct (truthy _); eauto.
Qed.

Lemma find_main_unflagged items :
  forallb (fun kv => negb (flagged_main (snd kv))) items = true ->
  forall v, find_main items = Ok v -> v = JNull.
Proof.
  induction items as [ | [name config] items IH]; simpl.
  - intros _ v H. now injection H as <-.
  - intros H. apply andb_prop in H. destruct H as [Hf Hrest].
    unfold flagged_main in Hf.
    destruct (dict_get config "main" (JBool false)) as [flag | e]; [ | discriminate ].
    apply negb_true_iff in Hf. rewrite Hf. now apply IH.
Qed.

Lemma run_project_without_main o src ie w :
  find_main o = Ok JNull ->
  run_project (JObj o) src ie w =
  (Ok tt, (if truthy ie then [] else [Print error6]), w).
Proof.
  intros F. unfold run_project.
  simpl dict_items. rewrite bind_lift_ok, F, bind_lift_ok. simpl.
  unfold when. destruct (truthy ie); reflexivity.
Qed.

Lemma run_project_with_main o name src ie w :
  find_main o = Ok (JStr name) ->
  name <> EmptyString ->
  run_project (JObj o) src ie w =
  let c := launch_command name src in
  match spawn c w with
  | (Completed rc, w') =>
      (Ok tt,
       Exec c (Completed rc) ::
         (if Z.eqb rc 0 then []
          else if truthy ie then []
               else [Print (error5 (CalledProcessError c rc))]),
       w')
  | (NotStarted, w') => (Raise SpawnError, [Exec c NotStarted], w')
  end.
Proof.
  intros F N. unfold run_project.
  simpl dict_items. rewrite bind_lift_ok, F, bind_lift_ok.
  assert (truthy (JStr name) = true) as ->.
  { simpl. apply negb_true_iff. now apply String.eqb_neq. }
  unfold launch_command. destruct nt; simpl join_under; rewrite bind_lift_ok;
    run_monad; cbv zeta; repeat case_step; reflexivity.
Qed.

Lemma run_project_launches vc src ie w e :
  In e (trace_of (run_project vc src ie w)) ->
  is_launch e = true ->
  exists o name, vc = JObj o /\ find_main o = Ok (JStr name) /\ name <> EmptyString.
Proof.
  unfold run_project. destruct vc; simpl dict_items;
    try (rewrite bind_lift_raise; intros []).
  rewrite bind_lift_ok.
  destruct (find_main o) as [v | err] eqn:F;
    [ rewrite bind_lift_ok | rewrite bind_lift_raise; intros [] ].
  destruct (find_main_shape _ _ F) as [-> | [name ->]].
  - simpl. unfold when, print, ret. destruct (truthy ie); simpl; intuition.
    subst e. discriminate.
  - destruct (String.eqb name EmptyString) eqn:N.
    + simpl. rewrite N. simpl.
      unfold when, print, ret. destruct (truthy ie); simpl; intuition.
      subst e. discriminate.
    + intros _ _. exists o, name. apply String.eqb_neq in N. auto.
Qed.

Lemma run_project_started vc src ie w :
  wf_venvs vc = true ->
  all_started (trace_of (run_project vc src ie w)) = true ->
  outcome_of (run_project vc src ie w) = Ok tt.
Proof.
  unfold wf_venvs. destruct vc; try discriminate. intros Wf.
  destruct (find_main_wf _ Wf) as [v F].
  destruct (find_main_shape _ _ F) as [-> | [name ->]].
  - rewrite run_project_without_main by exact F. reflexivity.
  - destruct (String.eqb name EmptyString) eqn:N.
    + unfold run_project. simpl dict_items. rewrite bind_lift_ok, F, bind_lift_ok.
      simpl. rewrite N. simpl. unfold when, print, ret.
      destruct (truthy ie); reflexivity.
    + apply String.eqb_neq in N.
      rewrite (run_project_with_main o name) by assumption.
      cbv zeta. destruct (spawn _ w) as [[rc | ] w']; [ reflexivity | discriminate ].
Qed.

(** ** The events of each phase *)

Lemma for_each_trace {A : Type} (P : trace -> Prop) (body : A -> M ctl)
    (l : list A) :
  P [] ->
  (forall t1 t2, P t1 -> P t2 -> P (t1 ++ t2)) ->
  (forall x, In x l -> forall w, P (trace_of (body x w))) ->
  forall w, P (trace_of (for_each body l w)).
Proof.
  intros Pnil Papp. induction l as [ | x l IH]; intros Hbody w; [ exact Pnil | ].
  rewrite for_each_cons.
  pose proof (Hbody x (or_introl eq_refl) w) as Hx.
  destruct (body x w) as [[[[ | ] | e] t] w'];
    unfold trace_of in *; cbn [fst snd] in *; auto.
  apply Papp; [ exact Hx | ]. apply IH. intros y Hy. apply Hbody. now right.
Qed.

Lemma pipeline_trace (P : trace -> Prop) vc deps src ie ii names w :
  P [] ->
  (forall t1 t2, P t1 -> P t2 -> P (t1 ++ t2)) ->
  (forall w1, P (trace_of (for_each (create_venv ie ii) names w1))) ->
  (forall entries w1,
      dict_items deps = Ok entries ->
      P (trace_of (for_each (install_dependency vc ie ii) entries w1))) ->
  (forall w1, P (trace_of (run_project vc src ie w1))) ->
  P (trace_of (pipeline vc deps src ie ii names w)).
Proof.
  intros Pnil Papp H1 H2 H3. rewrite pipeline_run.
  specialize (H1 w).
  destruct (for_each (create_venv ie ii) names w) as [[[[ | ] | e] t1] w1];
    unfold trace_of in *; cbn [fst snd] in *; auto.
  destruct (dict_items deps) as [entries | e]; cbn [fst snd]; auto.
  specialize (H2 entries w1 eq_refl). specialize (H3).
  destruct (for_each (install_dependency vc ie ii) entries w1)
    as [[[[ | ] | e] t2] w2]; cbn [fst snd] in *; auto.
Qed.

Lemma run_command_trace (P : trace -> Prop) pc uc dir w :
  P [] ->
  (forall vc deps src ie ii names w1,
      settings pc uc = Ok (vc, deps, src, ie, ii, names) ->
      P (trace_of (pipeline vc deps src ie ii names w1))) ->
  P (trace_of (run_command pc uc dir w)).
Proof.
  intros Pnil H. destruct (truthy pc) eqn:T.
  - rewrite run_command_settings by exact T.
    destruct (settings pc uc) as [[[[[[vc deps] src] ie] ii] names] | e];
      [ now apply H | exact Pnil ].
  - unfold run_command. rewrite T. exact Pnil.
Qed.

Lemma create_venv_events ie ii n w :
  Forall (create_event ie ii) (trace_of (create_venv ie ii n w)).
Proof.
  unfold create_venv.
  destruct (is_test_venv n) eqn:N; run_monad; simpl; repeat case_step;
    unfold trace_of; simpl;
    repeat (constructor; try assumption).
Qed.

Lemma install_dependency_events vc ie ii entry w :
  Forall (install_event ie ii) (trace_of (install_dependency vc ie ii entry w)).
Proof.
  unfold install_dependency. destruct entry as [package details].
  run_monad.
  destruct (dict_get details "venv" JNull) as [venv_name | e1]; [ | constructor ].
  destruct (dict_get details "version" JNull) as [package_version | e2]; [ | constructor ].
  destruct (truthy venv_name); [ | constructor ].
  destruct (py_in venv_name vc) as [[ | ] | e3]; try constructor.
  destruct (join_under venv_name _) as [pip_executable | e4]; [ | constructor ].
  simpl. repeat case_step; unfold trace_of; simpl;
    repeat (constructor; try assumption).
Qed.

Lemma run_project_events vc src ie w :
  Forall (launch_event ie) (trace_of (run_project vc src ie w)).
Proof.
  unfold run_project. run_monad.
  destruct (dict_items vc) as [items | e1]; [ | constructor ].
  destruct (find_main items) as [main_venv | e2]; [ | constructor ].
  simpl. destruct (truthy main_venv);
    [ | case_step; unfold trace_of; simpl; repeat (constructor; try assumption) ].
  destruct nt.
  - destruct (join_under main_venv _) as [activate_script | e3]; [ | constructor ].
    simpl. repeat case_step; unfold trace_of; simpl;
      repeat (constructor; try assumption).
  - destruct (join_under main_venv _) as [activate_script | e3]; [ | constructor ].
    simpl. repeat case_step; unfold trace_of; simpl;
      repeat (constructor; try assumption).
Qed.

Lemma Forall_weaken {A : Type} (P Q : A -> Prop) (l : list A) :
  (forall x, P x -> Q x) -> Forall P l -> Forall Q l.
Proof. intros H F. eapply Forall_impl; eauto. Qed.

Lemma pipeline_events vc deps src ie ii names w :
  Forall (run_event ie ii) (trace_of (pipeline vc deps src ie ii names w)).
Proof.
  apply pipeline_trace.
  - constructor.
  - intros t1 t2 F1 F2. apply Forall_app. auto.
  - intros w1. apply (for_each_trace (Forall (run_event ie ii))).
    + constructor.
    + intros t1 t2 F1 F2. apply Forall_app. auto.
    + intros n _ w2. eapply Forall_weaken; [ | apply create_venv_events ].
      intros e He. now left.
  - intros entries w1 _. apply (for_each_trace (Forall (run_event ie ii))).
    + constructor.
    + intros t1 t2 F1 F2. apply Forall_app. auto.
    + intros n _ w2. eapply Forall_weaken; [ | apply install_dependency_events ].
      intros e He. right. now left.
  - intros w1. eapply Forall_weaken; [ | apply run_project_events ].
    intros e He. right. now right.
Qed.

Lemma run_command_events pc uc dir w :
  Forall (run_event (ignore_flag uc "errors") (ignore_flag uc "info"))
    (trace_of (run_command pc uc dir w)).
Proof.
  apply (run_command_trace (Forall _)); [ constructor | ].
  intros vc deps src ie ii names w1 S.
  apply settings_flags in S. destruct S as [<- [<- _]].
  apply pipeline_events.
Qed.

Lemma settings_wf pc uc :
  truthy pc = true -> wf_project pc = true -> wf_tool uc = true ->
  exists vc deps src,
    settings pc uc =
      Ok (JObj vc, JObj deps, src, ignore_flag uc "errors", ignore_flag uc "info",
          map (fun kv => JStr (fst kv)) vc) /\
    dict_get pc "venv-configs" (JObj []) = Ok (JObj vc) /\
    forallb (fun kv => is_dict (snd kv)) vc = true /\
    forallb wf_dependency deps = true.
Proof.
  intros T Wp Wt. unfold wf_project, wf_tool in *.
  unfold settings, ignore_flag.
  destruct (dict_get pc "project-info" (JObj [])) as [pi | ]; [ | discriminate ].
  destruct (dict_get pc "venv-configs" (JObj [])) as [vc | ]; [ | discriminate ].
  destruct (dict_get pc "dependencies" (JObj [])) as [deps | ]; [ | discriminate ].
  apply andb_prop in Wp. destruct Wp as [Wp Wd].
  apply andb_prop in Wp. destruct Wp as [Wi Wv].
  destruct pi; try discriminate. destruct vc as [ | | | | | | vc]; try discriminate.
  destruct deps as [ | | | | | | deps]; try discriminate.
  destruct (dict_get uc "ignore" (JObj [])) as [ig | ]; [ | discriminate ].
  destruct ig; try discriminate. simpl.
  eexists _, _, _. repeat split; auto.
Qed.

Lemma pipeline_prefix vc deps src ie ii names w :
  exists rest,
    trace_of (pipeline vc deps src ie ii names w) =
    trace_of (for_each (create_venv ie ii) names w) ++ rest.
Proof.
  rewrite pipeline_run.
  destruct (for_each (create_venv ie ii) names w) as [[[[ | ] | e] t1] w1];
    unfold trace_of; cbn [fst snd];
    try (exists []; now rewrite app_nil_r).
  destruct (dict_items deps) as [entries | e]; cbn [fst snd];
    try (exists []; now rewrite app_nil_r).
  destruct (for_each (install_dependency vc ie ii) entries w1)
    as [[[[ | ] | e] t2] w2]; cbn [fst snd]; eauto.
Qed.

Lemma create_venv_visit ie ii n w :
  creations_succeed (trace_of (create_venv ie ii n w)) = true ->
  outcome_of (create_venv ie ii n w) = Ok Next /\
  (if is_test_venv n
   then truthy ii = false -> In (Print info_test_venv) (trace_of (create_venv ie ii n w))
   else In (Exec (VenvCreate n) (Completed 0)) (trace_of (create_venv ie ii n w))).
Proof.
  unfold create_venv.
  destruct (is_test_venv n) eqn:N; run_monad; simpl; repeat case_step;
    unfold trace_of, outcome_of, creations_succeed; simpl;
    intros H;
    repeat match goal with
      | E : Z.eqb ?rc 0 = _ |- _ =>
          rewrite E in H; simpl in H;
          try (apply Z.eqb_eq in E; subst rc); try discriminate H
      end;
    simpl in H; try discriminate H;
    split; auto; try discriminate.
Qed.

Lemma create_loop_visits ie ii names w n :
  creations_succeed (trace_of (for_each (create_venv ie ii) names w)) = true ->
  In n names ->
  if is_test_venv n
  then truthy ii = false ->
       In (Print info_test_venv) (trace_of (for_each (create_venv ie ii) names w))
  else In (Exec (VenvCreate n) (Completed 0))
         (trace_of (for_each (create_venv ie ii) names w)).
Proof.
  revert w. induction names as [ | x names IH]; intros w S Hin; [ destruct Hin | ].
  rewrite for_each_cons in *.
  pose proof (create_venv_visit ie ii x w) as V.
  destruct (create_venv ie ii x w) as [[r t] w'].
  unfold trace_of, outcome_of in *. cbn [fst snd] in *.
  assert (creations_succeed t = true /\
          (r = Ok Next -> creations_succeed
                            (snd (fst (for_each (create_venv ie ii) names w'))) = true))
    as [St Srest].
  { destruct r as [[ | ] | e]; cbn [fst snd] in S.
    - unfold creations_succeed in *. rewrite forallb_app in S.
      apply andb_prop in S. tauto.
    - split; [ exact S | discriminate ].
    - split; [ exact S | discriminate ]. }
  destruct (V St) as [-> Vx]. cbn [fst snd].
  destruct Hin as [<- | Hin].
  - destruct (is_test_venv x); intros; apply in_or_app; left; auto.
  - specialize (IH w' (Srest eq_refl) Hin).
    destruct (is_test_venv n); intros; apply in_or_app; right; auto.
Qed.

Ltac lines_differ :=
  match goal with
  | H : _ = _ |- _ =>
      solve [ unfold info_test_venv, info_installed, error3, error4, error5,
                error6, RED, YELLOW, RESET, ESC in H;
              simpl in H; congruence ]
  end.

Ltac event_cases H :=
  let H' := fresh in
  destruct H as [H' | [H' | H']]; inversion H'; subst;
  try assumption; try lines_differ.

Lemma run_event_create ie ii n r :
  run_event ie ii (Exec (VenvCreate n) r) -> is_test_venv n = false.
Proof. intros H. event_cases H. Qed.

Lemma run_event_skip ie ii :
  run_event ie ii (Print info_test_venv) -> truthy ii = false.
Proof. intros H. event_cases H. Qed.

Lemma run_event_error6 ie ii :
  run_event ie ii (Print error6) -> truthy ie = false.
Proof. intros H. event_cases H. Qed.

Lemma has_key_in k o :
  has_key k o = true -> exists v, In (k, v) o.
Proof.
  unfold has_key. induction o as [ | [k' v] o IH]; simpl; [ discriminate | ].
  destruct (String.eqb k k') eqn:E.
  - apply String.eqb_eq in E. subst. eauto.
  - intros H. destruct (IH H) as [v' Hv]. eauto.
Qed.


Lemma for_each_skip {A : Type} (body : A -> M ctl) (x : A) :
  (forall w, body x w = (Ok Next, [], w)) ->
  forall before after w,
    for_each body (before ++ x :: after) w = for_each body (before ++ after) w.
Proof.
  intros Hx before after. induction before as [ | y before IH]; intros w.
  - simpl app. rewrite for_each_cons, Hx.
    unfold outcome_of, trace_of, world_of.
    destruct (for_each body after w) as [[r t] w']. reflexivity.
  - simpl app. rewrite !for_each_cons.
    destruct (body y w) as [[[[ | ] | e] t] w']; try reflexivity.
    now rewrite IH.
Qed.


Lemma bind_ext {A B : Type} (m : M A) (k1 k2 : A -> M B) (w : World) :
  (forall a w', k1 a w' = k2 a w') -> bind m k1 w = bind m k2 w.
Proof.
  intros H. unfold bind. destruct (m w) as [[[a | e] t] w']; [ | reflexivity ].
  now rewrite H.
Qed.

Lemma bind_ret {A B : Type} (a : A) (k : A -> M B) (w : World) :
  bind (ret a) k w = k a w.
Proof. apply (bind_lift_ok a k w). Qed.

Lemma settings_ignore_warnings pc uc1 uc2 :
  differ_only_in_warnings uc1 uc2 -> settings pc uc1 = settings pc uc2.
Proof.
  intros D. destruct D as [o1 o2 ig1 ig2 _ I1 I2 S].
  unfold settings.
  replace (dict_get (JObj o1) "ignore" (JObj [])) with (Ok (JObj ig1))
    by (unfold dict_get; now rewrite I1).
  replace (dict_get (JObj o2) "ignore" (JObj [])) with (Ok (JObj ig2))
    by (unfold dict_get; now rewrite I2).
  unfold dict_get.
  rewrite (S "errors"), (S "info") by discriminate.
  reflexivity.
Qed.

Lemma run_command_ignore_warnings pc uc1 uc2 dir w :
  differ_only_in_warnings uc1 uc2 ->
  run_command pc uc1 dir w = run_command pc uc2 dir w.
Proof.
  intros D. destruct (truthy pc) eqn:T.
  - rewrite !run_command_settings by exact T.
    now rewrite (settings_ignore_warnings pc uc1 uc2 D).
  - unfold run_command. rewrite T. reflexivity.
Qed.

(** C10. The value of [ignore.warnings] influences nothing: on two tool
    configurations that differ only in that value, every subcommand
    prints the same lines, starts the same child processes with the same
    results, ends the same way and leaves the world in the same state. *)
Theorem ignore_warnings_is_never_consulted uc1 uc2 :
  differ_only_in_warnings uc1 uc2 ->
  forall dir_path command project_file w,
    main dir_path command (Loaded uc1) project_file w =
    main dir_path command (Loaded uc2) project_file w.
Proof.
  intros D dir_path command project_file w. unfold main.
  simpl read_uber_config. rewrite !bind_ret.
  apply bind_ext. intros pc w'.
  destruct command; try reflexivity.
  now apply run_command_ignore_warnings.
Qed.

(** ** Whole runs *)

Lemma all_started_app t1 t2 :
  all_started (t1 ++ t2) = all_started t1 && all_started t2.
Proof. apply forallb_app. Qed.

Lemma pipeline_started vc deps src ie ii names w :
  forallb (fun kv => is_dict (snd kv)) vc = true ->
  forallb wf_dependency deps = true ->
  all_started (trace_of (pipeline (JObj vc) (JObj deps) src ie ii names w)) = true ->
  outcome_of (pipeline (JObj vc) (JObj deps) src ie ii names w) = Ok tt.
Proof.
  intros Wv Wd. rewrite pipeline_run.
  pose proof (create_loop_started ie ii names w) as H1.
  destruct (for_each (create_venv ie ii) names w) as [[[[ | ] | e] t1] w1];
    unfold outcome_of, trace_of in *; cbn [fst snd dict_items] in *.
  - pose proof (install_loop_started vc ie ii deps w1 Wd) as H2.
    pose proof (run_project_started (JObj vc) src ie) as H3.
    destruct (for_each (install_dependency (JObj vc) ie ii) deps w1)
      as [[[[ | ] | e] t2] w2];
      unfold outcome_of, trace_of in *; cbn [fst snd] in *;
      rewrite !all_started_app; intros S;
      repeat match goal with
        | H : _ && _ = true |- _ => apply andb_prop in H; destruct H
        end.
    + apply H3; assumption.
    + reflexivity.
    + destruct H2 as [c Hc]; [ assumption | discriminate ].
  - reflexivity.
  - intros S. destruct (H1 S) as [c Hc]. discriminate.
Qed.

Lemma pipeline_clean vc deps src ie ii names w :
  forallb wf_dependency deps = true ->
  clean (trace_of (pipeline (JObj vc) (JObj deps) src ie ii names w)) = true ->
  exists t1 w1 t2 w2,
    for_each (create_venv ie ii) names w = (Ok Next, t1, w1) /\
    for_each (install_dependency (JObj vc) ie ii) deps w1 = (Ok Next, t2, w2) /\
    pipeline (JObj vc) (JObj deps) src ie ii names w =
    (outcome_of (run_project (JObj vc) src ie w2),
     t1 ++ t2 ++ trace_of (run_project (JObj vc) src ie w2),
     world_of (run_project (JObj vc) src ie w2)).
Proof.
  intros Wd. rewrite pipeline_run.
  pose proof (create_loop_progress ie ii names w) as H1.
  destruct (for_each (create_venv ie ii) names w) as [[[[ | ] | e] t1] w1] eqn:E1;
    unfold outcome_of, trace_of in *; cbn [fst snd dict_items] in *;
    try (intros S; specialize (H1 S); discriminate).
  pose proof (install_loop_progress vc ie ii deps w1 Wd) as H2.
  destruct (for_each (install_dependency (JObj vc) ie ii) deps w1)
    as [[[[ | ] | e] t2] w2] eqn:E2;
    unfold outcome_of, trace_of in *; cbn [fst snd] in *;
    rewrite !clean_app; intros S;
    repeat match goal with
      | H : _ && _ = true |- _ => apply andb_prop in H; destruct H
      end;
    try (specialize (H2 ltac:(assumption)); discriminate).
  exists t1, w1, t2, w2. rewrite E2. repeat split; reflexivity.
Qed.

Lemma read_uber_config_run file w :
  read_uber_config file w =
  (if readable file then Ok (config_of file) else Raise ReadError,
   trace_of (read_uber_config file w), w) /\
  clean (trace_of (read_uber_config file w)) = true.
Proof. destruct file; split; reflexivity. Qed.

Lemma read_project_config_run dir file w :
  read_project_config dir file w =
  (if readable file then Ok (config_of file) else Raise ReadError,
   trace_of (read_project_config dir file w), w) /\
  clean (trace_of (read_project_config dir file w)) = true.
Proof. destruct file; split; reflexivity. Qed.

Lemma main_run dir uf pf w :
  main dir CmdRun uf pf w =
  if readable uf && readable pf then
    (outcome_of (run_command (config_of pf) (config_of uf) dir w),
     trace_of (read_uber_config uf w) ++ trace_of (read_project_config dir pf w) ++
     trace_of (run_command (config_of pf) (config_of uf) dir w),
     world_of (run_command (config_of pf) (config_of uf) dir w))
  else
    (Raise ReadError,
     if readable uf
     then trace_of (read_uber_config uf w) ++ trace_of (read_project_config dir pf w)
     else trace_of (read_uber_config uf w), w).
Proof.
  unfold main. rewrite bind_run.
  destruct (read_uber_config_run uf w) as [-> _].
  destruct (readable uf); [ | reflexivity ]. simpl andb. cbv iota.
  rewrite bind_run.
  destruct (read_project_config_run dir pf w) as [-> _].
  unfold outcome_of, trace_of, world_of. cbn [fst snd].
  destruct (readable pf); reflexivity.
Qed.

Lemma main_run_disciplined dir uf pf w :
  stops_at_failure (ignore_flag (config_of uf) "errors") (main dir CmdRun uf pf w).
Proof.
  rewrite main_run.
  destruct (read_uber_config_run uf w) as [_ C1].
  destruct (read_project_config_run dir pf w) as [_ C2].
  unfold stops_at_failure, outcome_of at 1, trace_of at 1.
  destruct (readable uf && readable pf); cbn [fst snd].
  - apply disciplined_app; [ exact C1 | ].
    apply disciplined_app; [ exact C2 | ].
    apply run_command_disciplined.
  - apply disciplined_clean.
    destruct (readable uf); unfold trace_of at 1; cbn [fst snd]; [ | exact C1 ].
    rewrite clean_app, C1, C2. reflexivity.
Qed.

Lemma never_app p t1 t2 : never p (t1 ++ t2) = never p t1 && never p t2.
Proof. apply forallb_app. Qed.

Lemma Forall_never (Q : event -> Prop) (p : event -> bool) (t : trace) :
  (forall e, Q e -> p e = false) -> Forall Q t -> never p t = true.
Proof.
  intros H F. unfold never. apply forallb_forall. intros e He.
  rewrite Forall_forall in F. now rewrite (H e (F e He)).
Qed.

Lemma create_loop_events ie ii names w :
  Forall (create_event ie ii) (trace_of (for_each (create_venv ie ii) names w)).
Proof.
  apply (for_each_trace (Forall (create_event ie ii))).
  - constructor.
  - intros t1 t2 F1 F2. apply Forall_app. auto.
  - intros n _ w0. apply create_venv_events.
Qed.

Lemma install_loop_events vc ie ii entries w :
  Forall (install_event ie ii)
    (trace_of (for_each (install_dependency vc ie ii) entries w)).
Proof.
  apply (for_each_trace (Forall (install_event ie ii))).
  - constructor.
  - intros t1 t2 F1 F2. apply Forall_app. auto.
  - intros n _ w0. apply install_dependency_events.
Qed.

Lemma no_main_never_launches pc uc dir w :
  no_main pc = true ->
  never is_launch (trace_of (run_command pc uc dir w)) = true.
Proof.
  intros Nm. apply (run_command_trace (fun t => never is_launch t = true));
    [ reflexivity | ].
  intros vc deps src ie ii names w1 S. apply settings_flags in S.
  destruct S as [_ [_ [Hvc _]]].
  apply pipeline_trace.
  - reflexivity.
  - intros t1 t2 H1 H2. now rewrite never_app, H1, H2.
  - intros w2. eapply Forall_never; [ | apply create_loop_events ].
    intros e He. destruct He; reflexivity.
  - intros entries w2 _. eapply Forall_never; [ | apply install_loop_events ].
    intros e He. destruct He; reflexivity.
  - intros w2. unfold never. apply forallb_forall. intros e He.
    destruct (is_launch e) eqn:L; [ exfalso | reflexivity ].
    destruct (run_project_launches _ _ _ _ _ He L) as [o [name [-> [F _]]]].
    unfold no_main in Nm. rewrite Hvc in Nm.
    pose proof (find_main_unflagged o Nm _ F). discriminate.
Qed.


Lemma create_event_not_error6 ie ii : ~ create_event ie ii (Print error6).
Proof. intros H. inversion H; lines_differ. Qed.

Lemma install_event_not_error6 ie ii : ~ install_event ie ii (Print error6).
Proof. intros H. inversion H; lines_differ. Qed.


(** ** The [info] subcommand *)

Lemma find_main_first vc :
  forallb (fun kv => is_dict (snd kv)) vc = true ->
  find_main vc =
  Ok (match first_main vc with Some name => JStr name | None => JNull end).
Proof.
  unfold first_main. induction vc as [ | [name config] vc IH]; simpl;
    [ reflexivity | ].
  intros H. apply andb_prop in H. destruct H as [Hd Hrest].
  destruct config; try discriminate. unfold flagged_main. simpl.
  destruct (truthy _); [ reflexivity | ]. now apply IH.
Qed.


(** ** Running again *)

Lemma create_loop_succeeds ie ii names w :
  creations_succeed (trace_of (for_each (create_venv ie ii) names w)) = true ->
  clean (trace_of (for_each (create_venv ie ii) names w)) = true /\
  outcome_of (for_each (create_venv ie ii) names w) = Ok Next.
Proof.
  intros S.
  assert (clean (trace_of (for_each (create_venv ie ii) names w)) = true) as C.
  { pose proof (create_loop_events ie ii names w) as Ev.
    unfold clean, creations_succeed in *. rewrite forallb_forall in *.
    rewrite Forall_forall in Ev. intros e He.
    specialize (S e He). specialize (Ev e He).
    destruct Ev; simpl in *; auto. }
  split; [ exact C | now apply create_loop_progress ].
Qed.

Lemma install_dependency_present vc ie ii entry w :
  probes_succeed (trace_of (install_dependency vc ie ii entry w)) = true ->
  never is_install (trace_of (install_dependency vc ie ii entry w)) = true /\
  clean (trace_of (install_dependency vc ie ii entry w)) = true.
Proof.
  unfold install_dependency. destruct entry as [package details].
  run_monad.
  destruct (dict_get details "venv" JNull) as [venv_name | e1]; [ | finish ].
  destruct (dict_get details "version" JNull) as [package_version | e2]; [ | finish ].
  destruct (truthy venv_name); [ | finish ].
  destruct (py_in venv_name vc) as [[ | ] | e3]; [ | finish | finish ].
  destruct (join_under venv_name _) as [pip_executable | e4]; [ | finish ].
  simpl. repeat case_step; unfold trace_of, probes_succeed; simpl;
    intros H;
    repeat match goal with
      | E : Z.eqb ?rc 0 = _ |- _ => rewrite E in H; clear E
      end;
    simpl in H; try discriminate H; split; reflexivity.
Qed.

Lemma probes_succeed_app t1 t2 :
  probes_succeed (t1 ++ t2) = probes_succeed t1 && probes_succeed t2.
Proof. apply forallb_app. Qed.

Lemma creations_succeed_app t1 t2 :
  creations_succeed (t1 ++ t2) = creations_succeed t1 && creations_succeed t2.
Proof. apply forallb_app. Qed.

Lemma install_loop_present vc ie ii entries w :
  probes_succeed (trace_of (for_each (install_dependency vc ie ii) entries w)) = true ->
  never is_install (trace_of (for_each (install_dependency vc ie ii) entries w)) = true /\
  clean (trace_of (for_each (install_dependency vc ie ii) entries w)) = true.
Proof.
  apply (for_each_trace
           (fun t => probes_succeed t = true ->
                     never is_install t = true /\ clean t = true)).
  - intros _. split; reflexivity.
  - intros t1 t2 H1 H2. rewrite probes_succeed_app, never_app, clean_app.
    intros H. apply andb_prop in H. destruct H as [P1 P2].
    destruct (H1 P1) as [-> ->]. destruct (H2 P2) as [-> ->]. split; reflexivity.
  - intros entry _ w0. apply install_dependency_present.
Qed.

Lemma first_main_found vc name :
  forallb (fun kv => is_dict (snd kv)) vc = true ->
  first_main vc = Some name ->
  find_main vc = Ok (JStr name).
Proof. intros Wv F. now rewrite (find_main_first vc Wv), F. Qed.


(** ** An absent tool configuration *)

Lemma dict_get_raises d key default e :
  dict_get d key default = Raise e -> e = AttributeError.
Proof. destruct d; simpl; congruence. Qed.

Lemma run_command_without_tool_config pc dir w :
  truthy pc = true ->
  run_command pc JNull dir w = (Raise AttributeError, [], w).
Proof.
  intros T. rewrite run_command_settings by exact T. unfold settings.
  repeat match goal with
    | |- context [match dict_get ?d ?k ?v with Ok _ => _ | Raise _ => _ end] =>
        let E := fresh "E" in
        destruct (dict_get d k v) eqn:E;
        [ | apply dict_get_raises in E; subst; reflexivity ]
    end.
  discriminate.
Qed.

(** * Further properties of the program *)

(** ** Exceptions of the Python operations *)

Lemma dict_items_raises d e : dict_items d = Raise e -> e = AttributeError.
Proof. destruct d; simpl; congruence. Qed.

Lemma find_main_raises items e : find_main items = Raise e -> e = AttributeError.
Proof.
  induction items as [ | [name config] items IH]; simpl; [ discriminate | ].
  destruct (dict_get config "main" (JBool false)) as [flag | e'] eqn:G.
  - destruct (truthy flag); [ discriminate | exact IH ].
  - apply dict_get_raises in G. congruence.
Qed.

Lemma py_iter_raises v e : py_iter v = Raise e -> e = TypeError.
Proof. destruct v; simpl; congruence. Qed.

Lemma py_in_raises x v e : py_in x v = Raise e -> e = TypeError.
Proof. destruct v; simpl; try congruence; destruct x; simpl; congruence. Qed.

Lemma join_under_raises v rest e : join_under v rest = Raise e -> e = TypeError.
Proof. destruct v; simpl; congruence. Qed.

Ltac raises_known E :=
  first [ apply dict_get_raises in E
        | apply dict_items_raises in E
        | apply find_main_raises in E
        | apply py_iter_raises in E
        | apply py_in_raises in E
        | apply join_under_raises in E ];
  subst.

(** ** [info] and the bare invocation *)

Lemma info_command_quiet pc w :
  never is_exec (trace_of (info_command pc w)) = true /\
  world_of (info_command pc w) = w /\
  is_called_process_error (outcome_of (info_command pc w)) = false.
Proof.
  unfold info_command. destruct (negb (truthy pc)); [ repeat split | ].
  repeat match goal with
    | |- context [bind (lift ?r) _ _] =>
        let E := fresh "E" in
        destruct r eqn:E;
        [ rewrite bind_lift_ok
        | rewrite bind_lift_raise; raises_known E; repeat split ]
    end.
  run_monad. destruct (truthy _); repeat split.
Qed.

Lemma main_dispatch dir command uf pf w :
  main dir command uf pf w =
  if readable uf && readable pf then
    (outcome_of (dispatch dir command (config_of uf) (config_of pf) w),
     trace_of (read_uber_config uf w) ++ trace_of (read_project_config dir pf w) ++
     trace_of (dispatch dir command (config_of uf) (config_of pf) w),
     world_of (dispatch dir command (config_of uf) (config_of pf) w))
  else
    (Raise ReadError,
     if readable uf
     then trace_of (read_uber_config uf w) ++ trace_of (read_project_config dir pf w)
     else trace_of (read_uber_config uf w), w).
Proof.
  unfold main. rewrite bind_run.
  destruct (read_uber_config_run uf w) as [-> _].
  destruct (readable uf); [ | reflexivity ]. simpl andb. cbv iota.
  rewrite bind_run.
  destruct (read_project_config_run dir pf w) as [-> _].
  unfold outcome_of, trace_of, world_of. cbn [fst snd].
  destruct (readable pf); [ | reflexivity ].
  unfold dispatch. destruct command; reflexivity.
Qed.

Lemma loaders_quiet dir uf pf w :
  never is_exec (trace_of (read_uber_config uf w)) = true /\
  never is_exec (trace_of (read_project_config dir pf w)) = true.
Proof. destruct uf, pf; split; reflexivity. Qed.

(** X1. [info] and the invocation without a subcommand are read-only:
    whatever the two configuration files hold, they start no child
    process and leave the world as it was. *)
Theorem info_and_help_start_nothing dir uf pf w :
  (never is_exec (trace_of (main dir CmdInfo uf pf w)) = true /\
   world_of (main dir CmdInfo uf pf w) = w) /\
  (never is_exec (trace_of (main dir CmdNone uf pf w)) = true /\
   world_of (main dir CmdNone uf pf w) = w).
Proof.
  destruct (loaders_quiet dir uf pf w) as [Qu Qp].
  destruct (info_command_quiet (config_of pf) w) as [Qi [Wi _]].
  rewrite !main_dispatch.
  unfold trace_of, world_of in *.
  destruct (readable uf), (readable pf); simpl andb; cbv iota;
    cbn [fst snd dispatch];
    rewrite ?never_app, ?Qu, ?Qp, ?Qi, ?Wi; repeat split; reflexivity.
Qed.

(** X2. When the project configuration is missing, malformed, or any
    false value (null, an empty object), [info] and [run] do nothing
    beyond what the loaders printed: the process ends normally, with
    status 0, no child process and an unchanged world.  [run] does not
    even look at the tool configuration, so this holds when that one is
    missing too. *)
Theorem absent_project_config_is_a_no_op dir command uf pf w :
  readable uf = true -> readable pf = true ->
  truthy (config_of pf) = false ->
  command <> CmdNone ->
  main dir command uf pf w =
    (Ok tt,
     trace_of (read_uber_config uf w) ++ trace_of (read_project_config dir pf w),
     w) /\
  exit_status (outcome_of (main dir command uf pf w)) = 0%Z.
Proof.
  intros Ru Rp T C. rewrite main_dispatch, Ru, Rp. simpl andb. cbv iota.
  assert (dispatch dir command (config_of uf) (config_of pf) w = (Ok tt, [], w)) as ->.
  { destruct command; [ | | congruence ]; unfold dispatch, info_command, run_command;
      rewrite T; reflexivity. }
  unfold outcome_of, trace_of, world_of. cbn [fst snd]. rewrite !app_nil_r.
  split; reflexivity.
Qed.

(** X3. The diagnostics of the loaders cannot be silenced and do not
    depend on the subcommand: a missing tool configuration always prints
    Error [1] and a malformed one Error [2]; a missing project
    configuration always prints Error [7] and a malformed one Error [8],
    whatever [ignore.errors] says in the tool configuration that was
    read. *)
Theorem loader_errors_are_always_printed dir command w :
  (forall pf,
      In (Print (uber_error "Error [1]: Configuration file '" "' not found."))
         (trace_of (main dir command FileNotFoundError pf w)) /\
      In (Print (uber_error "Error [2]: Invalid JSON format in '" "'."))
         (trace_of (main dir command JSONDecodeError pf w))) /\
  (forall uf,
      readable uf = true ->
      In (Print (project_error dir "Error [7]: Project configuration file '"
                   "' not found."))
         (trace_of (main dir command uf FileNotFoundError w)) /\
      In (Print (project_error dir "Error [8]: Invalid JSON format in '" "'."))
         (trace_of (main dir command uf JSONDecodeError w))).
Proof.
  split.
  - intros pf. rewrite !main_dispatch. simpl readable. simpl andb.
    unfold trace_of.
    destruct (readable pf); cbn [fst snd];
      split; apply in_or_app; left; left; reflexivity.
  - intros uf Ru. rewrite !main_dispatch, Ru. simpl readable. simpl andb.
    unfold trace_of. cbn [fst snd].
    split; apply in_or_app; right; apply in_or_app; left; left; reflexivity.
Qed.

(** ** Exceptions that escape *)

Lemma create_venv_catches ie ii n w :
  is_called_process_error (outcome_of (create_venv ie ii n w)) = false.
Proof.
  unfold create_venv.
  destruct (is_test_venv n); run_monad; simpl; repeat case_step; reflexivity.
Qed.

Lemma install_dependency_catches vc ie ii entry w :
  is_called_process_error (outcome_of (install_dependency vc ie ii entry w)) = false.
Proof.
  unfold install_dependency. destruct entry as [package details].
  run_monad.
  destruct (dict_get details "venv" JNull) as [venv_name | e1] eqn:E1;
    [ | raises_known E1; reflexivity ].
  destruct (dict_get details "version" JNull) as [package_version | e2] eqn:E2;
    [ | raises_known E2; reflexivity ].
  destruct (truthy venv_name); [ | reflexivity ].
  destruct (py_in venv_name vc) as [[ | ] | e3] eqn:E3;
    [ | reflexivity | raises_known E3; reflexivity ].
  destruct (join_under venv_name _) as [pip_executable | e4] eqn:E4;
    [ | raises_known E4; reflexivity ].
  simpl. repeat case_step; reflexivity.
Qed.

Lemma run_project_catches vc src ie w :
  is_called_process_error (outcome_of (run_project vc src ie w)) = false.
Proof.
  unfold run_project. run_monad.
  destruct (dict_items vc) as [items | e1] eqn:E1; [ | raises_known E1; reflexivity ].
  destruct (find_main items) as [main_venv | e2] eqn:E2;
    [ | raises_known E2; reflexivity ].
  simpl. destruct (truthy main_venv); [ | case_step; reflexivity ].
  destruct nt.
  - destruct (join_under main_venv _) as [activate_script | e3] eqn:E3;
      [ | raises_known E3; reflexivity ].
    simpl. repeat case_step; reflexivity.
  - destruct (join_under main_venv _) as [activate_script | e3] eqn:E3;
      [ | raises_known E3; reflexivity ].
    simpl. repeat case_step; reflexivity.
Qed.

Lemma for_each_catches {A : Type} (body : A -> M ctl) (l : list A) :
  (forall x w, is_called_process_error (outcome_of (body x w)) = false) ->
  forall w, is_called_process_error (outcome_of (for_each body l w)) = false.
Proof.
  intros H w.
  apply (for_each_outcome (fun _ => true)
           (fun r => is_called_process_error r = false)); [ reflexivity | | ].
  - intros x _ w0 _. apply H.
  - apply forallb_forall. reflexivity.
Qed.

Lemma settings_raises pc uc e :
  settings pc uc = Raise e -> e = AttributeError \/ e = TypeError.
Proof.
  unfold settings.
  repeat match goal with
    | |- context [match ?r with Ok _ => _ | Raise _ => _ end] =>
        let E := fresh "E" in
        destruct r eqn:E;
        [ | raises_known E; intros H; injection H as <-; auto ]
    end.
  discriminate.
Qed.

Lemma run_command_catches pc uc dir w :
  is_called_process_error (outcome_of (run_command pc uc dir w)) = false.
Proof.
  destruct (truthy pc) eqn:T; [ | unfold run_command; rewrite T; reflexivity ].
  rewrite run_command_settings by exact T.
  destruct (settings pc uc) as [[[[[[vc deps] src] ie] ii] names] | e] eqn:S.
  - rewrite pipeline_run.
    pose proof (for_each_catches (create_venv ie ii) names
                  (create_venv_catches ie ii) w) as H1.
    destruct (for_each (create_venv ie ii) names w) as [[[[ | ] | e1] t1] w1];
      try exact H1; try reflexivity.
    destruct (dict_items deps) as [entries | e2] eqn:E2;
      [ | raises_known E2; reflexivity ].
    pose proof (for_each_catches (install_dependency vc ie ii) entries
                  (install_dependency_catches vc ie ii) w1) as H2.
    destruct (for_each (install_dependency vc ie ii) entries w1)
      as [[[[ | ] | e3] t2] w2]; try exact H2; try reflexivity.
    apply run_project_catches.
  - destruct (settings_raises _ _ _ S) as [-> | ->]; reflexivity.
Qed.

(** X4. A child process that exits with a non-zero status never makes the
    program crash: no [CalledProcessError] escapes [main], whatever the
    subcommand, the configurations and the world.  (What can escape is an
    error of reading a file, of the shape of a configuration, or of
    starting a process.) *)
Theorem called_process_error_never_escapes dir command uf pf w c rc :
  outcome_of (main dir command uf pf w) <> Raise (CalledProcessError c rc).
Proof.
  intros H.
  assert (is_called_process_error (outcome_of (main dir command uf pf w)) = false)
    as F; [ | rewrite H in F; discriminate F ].
  clear H. rewrite main_dispatch.
  destruct (readable uf && readable pf); [ | reflexivity ].
  unfold outcome_of at 1. cbn [fst snd].
  destruct command; cbn [dispatch].
  - apply info_command_quiet.
  - apply run_command_catches.
  - reflexivity.
Qed.

(** ** The launch *)

Lemma app_split_not_in {A : Type} (x : A) (a b t1 t2 : list A) :
  a ++ b = t1 ++ x :: t2 -> ~ In x a ->
  exists p, t1 = a ++ p /\ b = p ++ x :: t2.
Proof.
  revert t1. induction a as [ | y a IH]; intros t1 H N.
  - exists t1. auto.
  - destruct t1 as [ | z t1]; simpl in H; injection H as -> H.
    + exfalso. apply N. now left.
    + destruct (IH t1 H) as [p [-> ->]].
      * intros Hin. apply N. now right.
      * exists p. auto.
Qed.

Lemma create_trace_no_launch ie ii t ex cl r :
  Forall (create_event ie ii) t -> ~ In (Exec (Shell ex cl) r) t.
Proof.
  intros F Hin. rewrite Forall_forall in F. apply F in Hin. inversion Hin.
Qed.

Lemma install_trace_no_launch ie ii t ex cl r :
  Forall (install_event ie ii) t -> ~ In (Exec (Shell ex cl) r) t.
Proof.
  intros F Hin. rewrite Forall_forall in F. apply F in Hin. inversion Hin.
Qed.

Lemma find_main_ok_first vc v :
  find_main vc = Ok v ->
  v = match first_main vc with Some name => JStr name | None => JNull end.
Proof.
  unfold first_main. induction vc as [ | [name config] vc IH]; simpl.
  - intros H. now injection H as <-.
  - unfold flagged_main.
    destruct (dict_get config "main" (JBool false)) as [flag | e]; [ | discriminate ].
    destruct (truthy flag); [ | exact IH ].
    intros H. now injection H as <-.
Qed.

Lemma run_project_launch_shape vc src ie w t1 ex cl r t2 :
  trace_of (run_project vc src ie w) = t1 ++ Exec (Shell ex cl) r :: t2 ->
  t1 = [] /\
  (exists o name,
      vc = JObj o /\ first_main o = Some name /\ name <> EmptyString /\
      Shell ex cl = launch_command name src) /\
  match r with
  | Completed rc =>
      outcome_of (run_project vc src ie w) = Ok tt /\
      t2 = (if Z.eqb rc 0 then []
            else if truthy ie then []
                 else [Print (error5 (CalledProcessError (Shell ex cl) rc))])
  | NotStarted =>
      outcome_of (run_project vc src ie w) = Raise SpawnError /\ t2 = []
  end.
Proof.
  intros H.
  assert (In (Exec (Shell ex cl) r) (trace_of (run_project vc src ie w))) as Hin.
  { rewrite H. apply in_or_app. right. now left. }
  destruct (run_project_launches _ _ _ _ _ Hin eq_refl) as [o [name [-> [F N]]]].
  rewrite (run_project_with_main o name) in * by assumption.
  cbv zeta in *.
  assert (first_main o = Some name) as FM.
  { apply find_main_ok_first in F. destruct (first_main o); congruence. }
  destruct (spawn (launch_command name src) w) as [[rc | ] w'];
    unfold trace_of, outcome_of in *; cbn [fst snd] in *.
  - destruct t1 as [ | e1 t1]; simpl in H.
    + injection H as Hc Hr Ht. subst r. rewrite <- Hc, <- Ht.
      split; [ reflexivity | ]. split; [ exists o, name; auto | ].
      split; reflexivity.
    + exfalso. injection H as _ H.
      destruct (Z.eqb rc 0); [ | destruct (truthy ie) ];
        destruct t1 as [ | e2 t1]; simpl in H; try discriminate H.
      injection H as _ H. destruct t1; discriminate H.
  - destruct t1 as [ | e1 t1]; simpl in H.
    + injection H as Hc Hr Ht. subst r. rewrite <- Hc, <- Ht.
      split; [ reflexivity | ]. split; [ exists o, name; auto | ].
      split; reflexivity.
    + exfalso. injection H as _ H. destruct t1; discriminate H.
Qed.

Lemma pipeline_launch vc deps src ie ii names w t1 ex cl r t2 :
  trace_of (pipeline vc deps src ie ii names w) = t1 ++ Exec (Shell ex cl) r :: t2 ->
  exists p w2,
    trace_of (run_project vc src ie w2) = p ++ Exec (Shell ex cl) r :: t2 /\
    outcome_of (pipeline vc deps src ie ii names w) =
    outcome_of (run_project vc src ie w2).
Proof.
  rewrite pipeline_run.
  pose proof (create_loop_events ie ii names w) as Ev1.
  destruct (for_each (create_venv ie ii) names w) as [[r1 t1'] w1].
  unfold trace_of in Ev1. cbn [fst snd] in Ev1.
  pose proof (create_trace_no_launch ie ii t1' ex cl r Ev1) as N1.
  assert (forall b, t1' ++ b = t1 ++ Exec (Shell ex cl) r :: t2 ->
                    exists p, b = p ++ Exec (Shell ex cl) r :: t2) as Split1.
  { intros b Hb. destruct (app_split_not_in _ _ _ _ _ Hb N1) as [p [_ Hp]]. eauto. }
  assert (t1' = t1 ++ Exec (Shell ex cl) r :: t2 -> False) as No1.
  { intros Hb. apply N1. rewrite Hb. apply in_or_app. right. now left. }
  destruct r1 as [[ | ] | e1]; unfold trace_of, outcome_of; cbn [fst snd];
    try (intros Hb; destruct (No1 Hb)).
  destruct (dict_items deps) as [entries | e2]; cbn [fst snd];
    try (intros Hb; destruct (No1 Hb)).
  pose proof (install_loop_events vc ie ii entries w1) as Ev2.
  destruct (for_each (install_dependency vc ie ii) entries w1) as [[r2 t2'] w2].
  unfold trace_of in Ev2. cbn [fst snd] in Ev2.
  pose proof (install_trace_no_launch ie ii t2' ex cl r Ev2) as N2.
  destruct r2 as [[ | ] | e3]; cbn [fst snd]; intros Hb.
  - destruct (Split1 _ Hb) as [p Hp].
    destruct (app_split_not_in _ _ _ _ _ Hp N2) as [q [_ Hq]].
    exists q, w2. split; [ exact Hq | reflexivity ].
  - exfalso. destruct (Split1 _ Hb) as [p Hp].
    apply N2. rewrite Hp. apply in_or_app. right. now left.
  - exfalso. destruct (Split1 _ Hb) as [p Hp].
    apply N2. rewrite Hp. apply in_or_app. right. now left.
Qed.

Lemma settings_source pc uc vc deps src ie ii names :
  settings pc uc = Ok (vc, deps, src, ie, ii, names) ->
  exists project_info,
    dict_get pc "project-info" (JObj []) = Ok project_info /\
    dict_get project_info "project-source" (JStr "main.py") = Ok src.
Proof.
  unfold settings.
  repeat match goal with
    | |- context [match ?r with Ok _ => _ | Raise _ => _ end] =>
        match r with
        | dict_get _ _ _ => destruct r eqn:?; [ | discriminate ]
        | py_iter _ => destruct r eqn:?; [ | discriminate ]
        end
    end.
  intros H. injection H as <- <- <- <- <- <-. eauto.
Qed.

Lemma run_command_launch pc uc dir w t1 ex cl r t2 :
  trace_of (run_command pc uc dir w) = t1 ++ Exec (Shell ex cl) r :: t2 ->
  exists vc deps src ii names p w2,
    settings pc uc =
      Ok (vc, deps, src, ignore_flag uc "errors", ii, names) /\
    trace_of (run_project vc src (ignore_flag uc "errors") w2) =
      p ++ Exec (Shell ex cl) r :: t2 /\
    outcome_of (run_command pc uc dir w) =
    outcome_of (run_project vc src (ignore_flag uc "errors") w2).
Proof.
  destruct (truthy pc) eqn:T.
  - rewrite run_command_settings by exact T.
    destruct (settings pc uc) as [[[[[[vc deps] src] ie] ii] names] | e] eqn:S.
    + intros H. destruct (pipeline_launch _ _ _ _ _ _ _ _ _ _ _ _ H) as [p [w2 [Hp Ho]]].
      destruct (settings_flags _ _ _ _ _ _ _ _ S) as [<- _].
      exists vc, deps, src, ii, names, p, w2. auto.
    + intros H. destruct t1; discriminate H.
  - unfold run_command. rewrite T. intros H. destruct t1; discriminate H.
Qed.


(** X6. What [run] launches is fixed by the project configuration alone:
    the shell command activates the first environment, in declared order,
    whose [main] flag is true (its name is not empty) and runs the
    [project-source] of [project-info], "main.py" when that field is
    absent. *)
Theorem launch_uses_first_main_and_source pc uc dir w c r :
  In (Exec c r) (trace_of (run_command pc uc dir w)) ->
  is_launch (Exec c r) = true ->
  exists venv_configs name project_info project_source,
    dict_get pc "venv-configs" (JObj []) = Ok (JObj venv_configs) /\
    first_main venv_configs = Some name /\ name <> EmptyString /\
    dict_get pc "project-info" (JObj []) = Ok project_info /\
    dict_get project_info "project-source" (JStr "main.py") = Ok project_source /\
    c = launch_command name project_source.
Proof.
  intros Hin L. destruct c as [ | | | ex cl]; try discriminate L.
  apply in_split in Hin. destruct Hin as [t1 [t2 H]].
  destruct (run_command_launch _ _ _ _ _ _ _ _ _ H)
    as [vc [deps [src [ii [names [p [w2 [S [Hp _]]]]]]]]].
  destruct (run_project_launch_shape _ _ _ _ _ _ _ _ _ Hp)
    as [_ [[o [name [-> [FM [N C]]]]] _]].
  destruct (settings_source _ _ _ _ _ _ _ _ S) as [pi [Hpi Hsrc]].
  destruct (settings_flags _ _ _ _ _ _ _ _ S) as [_ [_ [Hvc _]]].
  exists o, name, pi, src. auto 10.
Qed.

(** ** The order of the phases *)

Lemma Forall_only (Q : event -> Prop) (p : event -> bool) (t : trace) :
  (forall e, Q e -> negb (is_exec e) || p e = true) -> Forall Q t -> only p t = true.
Proof.
  intros H F. unfold only. apply forallb_forall. intros e He.
  rewrite Forall_forall in F. auto.
Qed.

Lemma pipeline_phases vc deps src ie ii names w :
  exists t1 t2 t3,
    trace_of (pipeline vc deps src ie ii names w) = t1 ++ t2 ++ t3 /\
    only is_create t1 = true /\
    only (fun e => is_probe e || is_install e) t2 = true /\
    only is_launch t3 = true.
Proof.
  rewrite pipeline_run.
  pose proof (create_loop_events ie ii names w) as Ev1.
  destruct (for_each (create_venv ie ii) names w) as [[r1 t1] w1].
  unfold trace_of in *. cbn [fst snd] in Ev1.
  assert (only is_create t1 = true) as O1.
  { eapply Forall_only; [ | exact Ev1 ]. intros e He. destruct He; reflexivity. }
  assert (exists t2 t3, t1 = t1 ++ t2 ++ t3 /\
                        only (fun e => is_probe e || is_install e) t2 = true /\
                        only is_launch t3 = true) as Stop.
  { exists [], []. rewrite app_nil_r. auto. }
  destruct r1 as [[ | ] | e1]; cbn [fst snd];
    try (destruct Stop as [t2 [t3 [E [O2 O3]]]]; exists t1, t2, t3; now auto).
  destruct (dict_items deps) as [entries | e2]; cbn [fst snd];
    try (destruct Stop as [t2 [t3 [E [O2 O3]]]]; exists t1, t2, t3; now auto).
  pose proof (install_loop_events vc ie ii entries w1) as Ev2.
  destruct (for_each (install_dependency vc ie ii) entries w1) as [[r2 t2] w2].
  cbn [fst snd] in Ev2.
  assert (only (fun e => is_probe e || is_install e) t2 = true) as O2.
  { eapply Forall_only; [ | exact Ev2 ]. intros e He. destruct He; reflexivity. }
  pose proof (run_project_events vc src ie w2) as Ev3. unfold trace_of in Ev3.
  assert (only is_launch (snd (fst (run_project vc src ie w2))) = true) as O3.
  { eapply Forall_only; [ | exact Ev3 ]. intros e He. destruct He; reflexivity. }
  destruct r2 as [[ | ] | e3]; cbn [fst snd].
  - exists t1, t2, (snd (fst (run_project vc src ie w2))). auto.
  - exists t1, t2, []. rewrite app_nil_r. auto.
  - exists t1, t2, []. rewrite app_nil_r. auto.
Qed.

(** X7. A run goes through its three phases in order and never goes
    back: its trace is a first part whose child processes are all
    environment creations, then a part whose child processes are all pip
    probes and installations, then a part whose only child process is the
    launch.  So no environment is created once pip has been started, and
    nothing is probed or installed once the project is launched. *)
Theorem run_goes_through_phases_in_order pc uc dir w :
  exists t1 t2 t3,
    trace_of (run_command pc uc dir w) = t1 ++ t2 ++ t3 /\
    only is_create t1 = true /\
    only (fun e => is_probe e || is_install e) t2 = true /\
    only is_launch t3 = true.
Proof.
  apply (run_command_trace
           (fun t => exists t1 t2 t3,
                t = t1 ++ t2 ++ t3 /\
                only is_create t1 = true /\
                only (fun e => is_probe e || is_install e) t2 = true /\
                only is_launch t3 = true)).
  - exists [], [], []. auto.
  - intros vc deps src ie ii names w1 _. apply pipeline_phases.
Qed.

(** ** The flags change what is printed and nothing else *)

Lemma execs_app t1 t2 : execs (t1 ++ t2) = execs t1 ++ execs t2.
Proof. apply filter_app. Qed.

Lemma effects_eq {A : Type} (x y : result A * trace * World) :
  effects x = effects y <->
  outcome_of x = outcome_of y /\ execs (trace_of x) = execs (trace_of y) /\
  world_of x = world_of y.
Proof.
  unfold effects. split.
  - intros H. injection H as H1 H2 H3. auto.
  - intros [-> [-> ->]]. reflexivity.
Qed.

Lemma create_venv_effects ie ii ie' ii' n w :
  effects (create_venv ie ii n w) = effects (create_venv ie' ii' n w).
Proof.
  unfold create_venv.
  destruct (is_test_venv n); run_monad; simpl; repeat case_step; reflexivity.
Qed.

Lemma install_dependency_effects vc ie ii ie' ii' entry w :
  effects (install_dependency vc ie ii entry w) =
  effects (install_dependency vc ie' ii' entry w).
Proof.
  unfold install_dependency. destruct entry as [package details].
  run_monad.
  destruct (dict_get details "venv" JNull) as [venv_name | e1]; [ | reflexivity ].
  destruct (dict_get details "version" JNull) as [package_version | e2];
    [ | reflexivity ].
  destruct (truthy venv_name); [ | reflexivity ].
  destruct (py_in venv_name vc) as [[ | ] | e3]; try reflexivity.
  destruct (join_under venv_name _) as [pip_executable | e4]; [ | reflexivity ].
  simpl. repeat case_step; reflexivity.
Qed.

Lemma run_project_effects vc src ie ie' w :
  effects (run_project vc src ie w) = effects (run_project vc src ie' w).
Proof.
  unfold run_project. run_monad.
  destruct (dict_items vc) as [items | e1]; [ | reflexivity ].
  destruct (find_main items) as [main_venv | e2]; [ | reflexivity ].
  simpl. destruct (truthy main_venv); [ | repeat case_step; reflexivity ].
  destruct nt.
  - destruct (join_under main_venv _) as [activate_script | e3]; [ | reflexivity ].
    simpl. repeat case_step; reflexivity.
  - destruct (join_under main_venv _) as [activate_script | e3]; [ | reflexivity ].
    simpl. repeat case_step; reflexivity.
Qed.

Lemma for_each_effects {A : Type} (body body' : A -> M ctl) :
  (forall x w, effects (body x w) = effects (body' x w)) ->
  forall l w, effects (for_each body l w) = effects (for_each body' l w).
Proof.
  intros H l. induction l as [ | x l IH]; intros w; [ reflexivity | ].
  rewrite !for_each_cons.
  specialize (H x w). apply effects_eq in H.
  destruct (body x w) as [[r t] w1]. destruct (body' x w) as [[r' t'] w1'].
  unfold outcome_of, trace_of, world_of in H. cbn [fst snd] in H.
  destruct H as [<- [Ht <-]].
  destruct r as [[ | ] | e]; apply effects_eq;
    unfold outcome_of, trace_of, world_of; cbn [fst snd]; auto.
  specialize (IH w1). apply effects_eq in IH.
  unfold outcome_of, trace_of, world_of in IH. destruct IH as [Ho [He Hw]].
  rewrite !execs_app, Ht, He. auto.
Qed.

Lemma pipeline_effects vc deps src ie ii ie' ii' names w :
  effects (pipeline vc deps src ie ii names w) =
  effects (pipeline vc deps src ie' ii' names w).
Proof.
  rewrite !pipeline_run.
  pose proof (for_each_effects _ _ (create_venv_effects ie ii ie' ii') names w) as H1.
  apply effects_eq in H1.
  destruct (for_each (create_venv ie ii) names w) as [[r1 t1] w1].
  destruct (for_each (create_venv ie' ii') names w) as [[r1' t1'] w1'].
  unfold outcome_of, trace_of, world_of in H1. cbn [fst snd] in H1.
  destruct H1 as [<- [Ht1 <-]].
  destruct r1 as [[ | ] | e1]; try (apply effects_eq;
    unfold outcome_of, trace_of, world_of; cbn [fst snd]; now auto).
  destruct (dict_items deps) as [entries | e2]; try (apply effects_eq;
    unfold outcome_of, trace_of, world_of; cbn [fst snd]; now auto).
  pose proof (for_each_effects _ _
                (install_dependency_effects vc ie ii ie' ii') entries w1) as H2.
  apply effects_eq in H2.
  destruct (for_each (install_dependency vc ie ii) entries w1) as [[r2 t2] w2].
  destruct (for_each (install_dependency vc ie' ii') entries w1) as [[r2' t2'] w2'].
  unfold outcome_of, trace_of, world_of in H2. cbn [fst snd] in H2.
  destruct H2 as [<- [Ht2 <-]].
  destruct r2 as [[ | ] | e3]; apply effects_eq;
    unfold outcome_of, trace_of, world_of; cbn [fst snd];
    rewrite ?execs_app, ?Ht1, ?Ht2; auto.
  pose proof (run_project_effects vc src ie ie' w2) as H3.
  apply effects_eq in H3. unfold outcome_of, trace_of, world_of in H3.
  destruct H3 as [-> [-> ->]]. auto.
Qed.

Lemma settings_of_tool pc uc :
  wf_tool uc = true ->
  settings pc uc =
  match settings pc (JObj []) with
  | Ok (vc, deps, src, _, _, names) =>
      Ok (vc, deps, src, ignore_flag uc "errors", ignore_flag uc "info", names)
  | Raise e => Raise e
  end.
Proof.
  unfold wf_tool, settings, ignore_flag. intros W.
  destruct (dict_get uc "ignore" (JObj [])) as [ig | e]; [ | discriminate ].
  destruct ig; try discriminate. simpl.
  repeat match goal with
    | |- context [match ?r with Ok _ => _ | Raise _ => _ end] =>
        destruct r; [ | reflexivity ]
    end.
  reflexivity.
Qed.

Lemma run_command_effects pc uc1 uc2 dir w :
  wf_tool uc1 = true -> wf_tool uc2 = true ->
  effects (run_command pc uc1 dir w) = effects (run_command pc uc2 dir w).
Proof.
  intros W1 W2. destruct (truthy pc) eqn:T.
  - rewrite !run_command_settings by exact T.
    rewrite (settings_of_tool pc uc1 W1), (settings_of_tool pc uc2 W2).
    destruct (settings pc (JObj [])) as [[[[[[vc deps] src] ie] ii] names] | e];
      [ apply pipeline_effects | reflexivity ].
  - unfold run_command. rewrite T. reflexivity.
Qed.


(** X9. Each flag silences its whole class of lines.  With
    [ignore.errors] set, [run_command] prints no red line at all (none of
    Error [3] to Error [6]); with [ignore.info] set it prints no yellow
    line at all (neither the [test-venv] notice nor "already
    installed"). *)
Theorem ignore_flags_silence_their_lines pc uc dir w :
  (truthy (ignore_flag uc "errors") = true ->
   never (coloured RED) (trace_of (run_command pc uc dir w)) = true) /\
  (truthy (ignore_flag uc "info") = true ->
   never (coloured YELLOW) (trace_of (run_command pc uc dir w)) = true).
Proof.
  pose proof (run_command_events pc uc dir w) as Ev.
  split; intros T; (eapply Forall_never; [ | exact Ev ]);
    intros e [He | [He | He]]; destruct He; try reflexivity; congruence.
Qed.

(** ** The order of the creations *)

Lemma creations_app t1 t2 : creations (t1 ++ t2) = creations t1 ++ creations t2.
Proof. apply flat_map_app. Qed.

Lemma creations_none (Q : event -> Prop) (t : trace) :
  (forall e, Q e -> is_create e = false) -> Forall Q t -> creations t = [].
Proof.
  intros H F. induction F as [ | e t He _ IH]; [ reflexivity | ].
  simpl. rewrite IH. specialize (H e He).
  destruct e as [ | | [ ] ]; try reflexivity. discriminate H.
Qed.

Lemma create_venv_creations ie ii n w :
  creations (trace_of (create_venv ie ii n w)) =
  if is_test_venv n then [] else [n].
Proof.
  unfold create_venv.
  destruct (is_test_venv n); run_monad; simpl; repeat case_step; reflexivity.
Qed.

Lemma create_loop_creations ie ii names w :
  exists rest,
    filter (fun n => negb (is_test_venv n)) names =
      creations (trace_of (for_each (create_venv ie ii) names w)) ++ rest /\
    (outcome_of (for_each (create_venv ie ii) names w) = Ok Next -> rest = []).
Proof.
  revert w. induction names as [ | n names IH]; intros w.
  - exists []. split; reflexivity.
  - rewrite for_each_cons.
    pose proof (create_venv_creations ie ii n w) as Hn.
    destruct (create_venv ie ii n w) as [[r t] w1].
    unfold trace_of, outcome_of in *. cbn [fst snd] in *.
    destruct r as [[ | ] | e]; cbn [fst snd filter].
    + destruct (IH w1) as [rest [Hr Hnext]]. exists rest.
      rewrite creations_app, Hn, <- app_assoc, <- Hr.
      split; [ now destruct (is_test_venv n) | exact Hnext ].
    + exists (filter (fun n => negb (is_test_venv n)) names).
      rewrite Hn. split; [ now destruct (is_test_venv n) | discriminate ].
    + exists (filter (fun n => negb (is_test_venv n)) names).
      rewrite Hn. split; [ now destruct (is_test_venv n) | discriminate ].
Qed.

Lemma pipeline_creations vc deps src ie ii names w :
  creations (trace_of (pipeline vc deps src ie ii names w)) =
  creations (trace_of (for_each (create_venv ie ii) names w)).
Proof.
  rewrite pipeline_run.
  destruct (for_each (create_venv ie ii) names w) as [[[[ | ] | e1] t1] w1];
    unfold trace_of; cbn [fst snd]; try reflexivity.
  destruct (dict_items deps) as [entries | e2]; cbn [fst snd]; try reflexivity.
  pose proof (install_loop_events vc ie ii entries w1) as Ev2.
  pose proof (run_project_events vc src ie) as Ev3.
  assert (forall t, Forall (install_event ie ii) t -> creations t = []) as C2.
  { intros t. apply creations_none. intros e He. destruct He; reflexivity. }
  assert (forall t, Forall (launch_event ie) t -> creations t = []) as C3.
  { intros t. apply creations_none. intros e He. destruct He; reflexivity. }
  destruct (for_each (install_dependency vc ie ii) entries w1)
    as [[[[ | ] | e3] t2] w2]; unfold trace_of in *; cbn [fst snd] in *;
    rewrite !creations_app, ?(C2 _ Ev2), ?(C3 _ (Ev3 _)), ?app_nil_r; reflexivity.
Qed.


(** ** Where pip runs *)

Lemma install_dependency_serves vc ie ii entry w :
  Forall (pip_serves vc [entry]) (trace_of (install_dependency vc ie ii entry w)).
Proof.
  unfold install_dependency. destruct entry as [package details].
  run_monad.
  destruct (dict_get details "venv" JNull) as [venv_name | e1] eqn:E1; [ | constructor ].
  destruct (dict_get details "version" JNull) as [package_version | e2] eqn:E2;
    [ | constructor ].
  destruct (truthy venv_name); [ | constructor ].
  destruct (py_in venv_name vc) as [[ | ] | e3] eqn:E3; try constructor.
  destruct venv_name as [ | | | | s | | ]; simpl join_under; try constructor.
  assert (forall c r,
             c = PipShow (pip_of s) package \/
             c = PipInstall (pip_of s) (pip_requirement package package_version) ->
             pip_serves vc [(package, details)] (Exec c r)) as Served.
  { intros c r Hc _. exists (package, details). split; [ now left | ].
    exists s, package_version. auto. }
  simpl. repeat case_step; unfold trace_of; simpl;
    repeat (constructor; try exact I; try (apply Served; auto)).
Qed.

Lemma pip_serves_more vc entries entries' e :
  (forall x, In x entries -> In x entries') ->
  pip_serves vc entries e -> pip_serves vc entries' e.
Proof.
  intros Sub. destruct e; simpl; auto.
  intros H L. destruct (H L) as [entry [Hin S]]. eauto.
Qed.

Lemma install_loop_serves vc ie ii entries w :
  Forall (pip_serves vc entries)
    (trace_of (for_each (install_dependency vc ie ii) entries w)).
Proof.
  apply (for_each_trace (Forall (pip_serves vc entries))).
  - constructor.
  - intros t1 t2 F1 F2. apply Forall_app. auto.
  - intros entry Hin w0.
    eapply Forall_weaken; [ | apply install_dependency_serves ].
    intros e. apply pip_serves_more. intros x [<- | []]. exact Hin.
Qed.

(** X11. pip only ever runs for a declared dependency, inside the
    environment that dependency names: every [pip show] and [pip install]
    of a run uses the pip of an environment that the entry's [venv] names
    and that is found in [venv-configs], probes the entry's own package,
    and installs that package pinned with [==] to the entry's [version]
    when one is given, unpinned otherwise. *)
Theorem pip_serves_declared_dependencies pc uc dir w c r :
  In (Exec c r) (trace_of (run_command pc uc dir w)) ->
  is_probe (Exec c r) || is_install (Exec c r) = true ->
  exists venv_configs dependencies entry,
    dict_get pc "venv-configs" (JObj []) = Ok venv_configs /\
    dict_get pc "dependencies" (JObj []) = Ok (JObj dependencies) /\
    In entry dependencies /\
    serves venv_configs entry c.
Proof.
  intros Hin L.
  assert (Forall (fun e =>
                    match e with
                    | Exec c _ =>
                        is_probe e || is_install e = true ->
                        exists venv_configs dependencies entry,
                          dict_get pc "venv-configs" (JObj []) = Ok venv_configs /\
                          dict_get pc "dependencies" (JObj []) = Ok (JObj dependencies) /\
                          In entry dependencies /\
                          serves venv_configs entry c
                    | _ => True
                    end) (trace_of (run_command pc uc dir w))) as F.
  { apply (run_command_trace (Forall _)); [ constructor | ].
    intros vc deps src ie ii names w1 S.
    destruct (settings_flags _ _ _ _ _ _ _ _ S) as [_ [_ [Hvc [Hdeps _]]]].
    apply pipeline_trace.
    - constructor.
    - intros t1 t2 F1 F2. apply Forall_app. auto.
    - intros w2. eapply Forall_weaken; [ | apply create_loop_events ].
      intros e He. destruct He; try exact I. discriminate.
    - intros entries w2 Hitems.
      eapply Forall_weaken; [ | apply (install_loop_serves vc ie ii entries w2) ].
      intros e He. destruct e; try exact I. intros Le.
      destruct (He Le) as [entry [Hentry Hs]].
      destruct deps; try discriminate Hitems. injection Hitems as ->.
      exists vc, entries, entry. auto.
    - intros w2. eapply Forall_weaken; [ | apply run_project_events ].
      intros e He. destruct He; try exact I. discriminate. }
  rewrite Forall_forall in F. exact (F _ Hin L).
Qed.

(** ** Installations and their probes *)

Lemma app_eq_split {A : Type} (x : A) (u1 u2 t1 t2 : list A) :
  u1 ++ u2 = t1 ++ x :: t2 ->
  (exists b, u1 = t1 ++ x :: b /\ t2 = b ++ u2) \/
  (exists a, t1 = u1 ++ a /\ u2 = a ++ x :: t2).
Proof.
  revert t1. induction u1 as [ | y u1 IH]; intros t1 H.
  - right. exists t1. auto.
  - destruct t1 as [ | z t1]; simpl in H; injection H as -> H.
    + left. exists u1. auto.
    + destruct (IH t1 H) as [[b [-> ->]] | [a [-> ->]]].
      * left. exists b. auto.
      * right. exists a. auto.
Qed.

Lemma installs_follow_probes_app t1 t2 :
  installs_follow_probes t1 -> installs_follow_probes t2 ->
  installs_follow_probes (t1 ++ t2).
Proof.
  intros P1 P2 a pip req r b H.
  destruct (app_eq_split _ _ _ _ _ H) as [[b' [H1 _]] | [a' [-> H2]]].
  - exact (P1 _ _ _ _ _ H1).
  - destruct (P2 _ _ _ _ _ H2) as [t0 [package [rc [v [pv [-> [Hrc Hreq]]]]]]].
    exists (t1 ++ t0), package, rc, v, pv. rewrite app_assoc. auto.
Qed.

Lemma never_install_absent t a pip req r b :
  never is_install t = true -> t = a ++ Exec (PipInstall pip req) r :: b -> False.
Proof.
  intros N H. unfold never in N. rewrite forallb_forall in N.
  specialize (N (Exec (PipInstall pip req) r)). simpl in N.
  assert (false = true) as F; [ | discriminate F ].
  apply N. rewrite H. apply in_or_app. right. now left.
Qed.

Lemma installs_follow_probes_never t :
  never is_install t = true -> installs_follow_probes t.
Proof.
  intros N a pip req r b H. exfalso. exact (never_install_absent _ _ _ _ _ _ N H).
Qed.

Lemma install_dependency_shape vc ie ii entry w :
  never is_install (trace_of (install_dependency vc ie ii entry w)) = true \/
  exists pip package rc venv_name package_version r tail,
    rc <> 0%Z /\
    trace_of (install_dependency vc ie ii entry w) =
      Exec (PipShow pip package) (Completed rc) ::
      Print [Str "Installing "; Fmt (JStr package); Str " in "; Fmt venv_name] ::
      Exec (PipInstall pip (pip_requirement package package_version)) r :: tail /\
    never is_install tail = true.
Proof.
  unfold install_dependency. destruct entry as [package details].
  run_monad.
  destruct (dict_get details "venv" JNull) as [venv_name | e1]; [ | now left ].
  destruct (dict_get details "version" JNull) as [package_version | e2]; [ | now left ].
  destruct (truthy venv_name); [ | now left ].
  destruct (py_in venv_name vc) as [[ | ] | e3]; try now left.
  destruct (join_under venv_name _) as [pip_executable | e4]; [ | now left ].
  simpl.
  destruct (spawn (PipShow pip_executable package) w) as [[rc | ] w1];
    [ | now left ].
  destruct (Z.eqb rc 0) eqn:Erc; simpl.
  - rewrite ?Erc. simpl. left. destruct (truthy ii); reflexivity.
  - rewrite ?Erc. simpl. right.
    exists pip_executable, package, rc, venv_name, package_version.
    apply Z.eqb_neq in Erc.
    repeat case_step; unfold trace_of; simpl; eexists _, _;
      (split; [ exact Erc | split; reflexivity ]).
Qed.

Lemma install_dependency_follows vc ie ii entry w :
  installs_follow_probes (trace_of (install_dependency vc ie ii entry w)).
Proof.
  destruct (install_dependency_shape vc ie ii entry w)
    as [N | [pip [package [rc [v [pv [r [tail [Hrc [-> N]]]]]]]]]].
  - now apply installs_follow_probes_never.
  - intros t1 pip' req r' t2 H.
    destruct t1 as [ | e1 t1]; simpl in H; [ discriminate H | ].
    injection H as <- H.
    destruct t1 as [ | e2 t1]; simpl in H; [ discriminate H | ].
    injection H as <- H.
    destruct t1 as [ | e3 t1]; simpl in H.
    + injection H as <- <- <- <-.
      exists [], package, rc, v, pv. auto.
    + injection H as _ H. exfalso.
      exact (never_install_absent _ _ _ _ _ _ N H).
Qed.

(** X12. Nothing is installed unchecked: every [pip install] of a run
    comes immediately after a [pip show] of the same package, by the same
    pip, that exited with a non-zero status (and the line "Installing
    ..."), and its requirement is that package, pinned or not. *)
Theorem installation_follows_a_failed_probe pc uc dir w
    t1 pip_executable requirement r t2 :
  trace_of (run_command pc uc dir w) =
    t1 ++ Exec (PipInstall pip_executable requirement) r :: t2 ->
  exists t0 package rc venv_name package_version,
    t1 = t0 ++ [Exec (PipShow pip_executable package) (Completed rc);
                Print [Str "Installing "; Fmt (JStr package); Str " in ";
                       Fmt venv_name]] /\
    rc <> 0%Z /\
    requirement = pip_requirement package package_version.
Proof.
  revert t1 pip_executable requirement r t2.
  change (installs_follow_probes (trace_of (run_command pc uc dir w))).
  apply run_command_trace.
  - apply installs_follow_probes_never. reflexivity.
  - intros vc deps src ie ii names w1 _. apply pipeline_trace.
    + apply installs_follow_probes_never. reflexivity.
    + apply installs_follow_probes_app.
    + intros w2. apply installs_follow_probes_never.
      eapply Forall_never; [ | apply create_loop_events ].
      intros e He. destruct He; reflexivity.
    + intros entries w2 _. apply for_each_trace.
      * apply installs_follow_probes_never. reflexivity.
      * apply installs_follow_probes_app.
      * intros entry _ w3. apply install_dependency_follows.
    + intros w2. apply installs_follow_probes_never.
      eapply Forall_never; [ | apply run_project_events ].
      intros e He. destruct He; reflexivity.
Qed.

Lemma starts_clean_app t1 t2 :
  starts_clean t1 -> starts_clean t2 -> starts_clean (t1 ++ t2).
Proof. destruct t1; simpl; auto. Qed.

Lemma starts_clean_never t : never is_install t = true -> starts_clean t.
Proof.
  destruct t as [ | e t]; simpl; [ trivial | ].
  intros H. apply andb_prop in H. destruct H as [H _].
  now apply negb_true_iff in H.
Qed.

Lemma hits_are_reported_app ii t1 t2 :
  hits_are_reported ii t1 -> hits_are_reported ii t2 -> starts_clean t2 ->
  hits_are_reported ii (t1 ++ t2).
Proof.
  intros P1 P2 S2 a pip package b H.
  destruct (app_eq_split _ _ _ _ _ H) as [[b' [H1 ->]] | [a' [-> H2]]].
  - destruct (P1 _ _ _ _ H1) as [v [rest [-> Hrest]]].
    exists v, (rest ++ t2). split.
    + destruct (truthy ii); reflexivity.
    + destruct rest; [ exact S2 | exact Hrest ].
  - exact (P2 _ _ _ _ H2).
Qed.

Lemma hits_are_reported_never ii t :
  never is_hit t = true -> hits_are_reported ii t.
Proof.
  intros N a pip package b H. exfalso.
  unfold never in N. rewrite forallb_forall in N.
  specialize (N (Exec (PipShow pip package) (Completed 0))). simpl in N.
  assert (false = true) as F; [ | discriminate F ].
  apply N. rewrite H. apply in_or_app. right. now left.
Qed.

Lemma install_dependency_hit vc ie ii entry w :
  hits_are_reported ii (trace_of (install_dependency vc ie ii entry w)) /\
  starts_clean (trace_of (install_dependency vc ie ii entry w)).
Proof.
  unfold install_dependency. destruct entry as [package details].
  run_monad.
  assert (hits_are_reported ii [] /\ starts_clean []) as Nil.
  { split; [ now apply hits_are_reported_never | exact I ]. }
  destruct (dict_get details "venv" JNull) as [venv_name | e1]; [ | exact Nil ].
  destruct (dict_get details "version" JNull) as [package_version | e2];
    [ | exact Nil ].
  destruct (truthy venv_name); [ | exact Nil ].
  destruct (py_in venv_name vc) as [[ | ] | e3]; try exact Nil.
  destruct (join_under venv_name _) as [pip_executable | e4]; [ | exact Nil ].
  simpl.
  destruct (spawn (PipShow pip_executable package) w) as [[rc | ] w1].
  - destruct (Z.eqb rc 0) eqn:Erc; simpl; rewrite ?Erc; simpl.
    + split; [ | destruct (truthy ii); reflexivity ].
      intros t1 pip p t2 H.
      assert (t1 = [] /\ p = package /\
              t2 = if truthy ii then []
                   else [Print (info_installed package venv_name)]) as [-> [-> ->]].
      { destruct (truthy ii); unfold trace_of in H; simpl in H;
          destruct t1 as [ | e t1]; simpl in H.
        - injection H as _ <- _ <-. auto.
        - injection H as _ H. destruct t1; discriminate H.
        - injection H as _ <- _ <-. auto.
        - injection H as _ H. destruct t1 as [ | e' t1]; simpl in H;
            [ discriminate H | ]. injection H as _ H. destruct t1; discriminate H. }
      exists venv_name, []. split; [ now destruct (truthy ii) | exact I ].
    + split; [ | repeat case_step; reflexivity ].
      apply hits_are_reported_never.
      repeat case_step; unfold trace_of, never; simpl; now rewrite Erc.
  - split; [ now apply hits_are_reported_never | reflexivity ].
Qed.

(** X13. A dependency that is already there is reported and left alone:
    right after every [pip show] of a run that exits with status 0 comes
    the line "already installed ... Skipping." for that package, unless
    [ignore.info] is set, and what the run does next is not an
    installation. *)
Theorem present_dependency_is_reported pc uc dir w t1 pip_executable package t2 :
  trace_of (run_command pc uc dir w) =
    t1 ++ Exec (PipShow pip_executable package) (Completed 0) :: t2 ->
  exists venv_name rest,
    t2 = (if truthy (ignore_flag uc "info") then rest
          else Print (info_installed package venv_name) :: rest) /\
    match rest with
    | e :: _ => is_install e = false
    | [] => True
    end.
Proof.
  revert t1 pip_executable package t2.
  change (hits_are_reported (ignore_flag uc "info")
            (trace_of (run_command pc uc dir w))).
  apply (run_command_trace (hits_are_reported (ignore_flag uc "info"))).
  - apply hits_are_reported_never. reflexivity.
  - intros vc deps src ie ii names w1 S.
    destruct (settings_flags _ _ _ _ _ _ _ _ S) as [_ [<- _]].
    apply (pipeline_trace
             (fun t => hits_are_reported (ignore_flag uc "info") t /\ starts_clean t)).
    + split; [ now apply hits_are_reported_never | exact I ].
    + intros a b [Pa Sa] [Pb Sb].
      split; [ now apply hits_are_reported_app | now apply starts_clean_app ].
    + intros w2.
      pose proof (create_loop_events ie (ignore_flag uc "info") names w2) as Ev.
      split; [ apply hits_are_reported_never | apply starts_clean_never ];
        (eapply Forall_never; [ | exact Ev ]); intros e He; destruct He; reflexivity.
    + intros entries w2 _.
      apply (for_each_trace
               (fun t => hits_are_reported (ignore_flag uc "info") t /\ starts_clean t)).
      * split; [ now apply hits_are_reported_never | exact I ].
      * intros a b [Pa Sa] [Pb Sb].
        split; [ now apply hits_are_reported_app | now apply starts_clean_app ].
      * intros entry _ w3. apply install_dependency_hit.
    + intros w2.
      pose proof (run_project_events vc src ie w2) as Ev.
      split; [ apply hits_are_reported_never | apply starts_clean_never ];
        (eapply Forall_never; [ | exact Ev ]); intros e He; destruct He; reflexivity.
Qed.

(** ** More on [info] *)


(** X15. Fields the program does not know are ignored: two non-empty
    project configurations with the same [project-info], the same
    [venv-configs] and the same [dependencies] behave alike under every
    subcommand, whatever else they hold and in whatever order their keys
    come. *)
Theorem unknown_fields_are_ignored o1 o2 :
  o1 <> [] -> o2 <> [] ->
  lookup "project-info" o1 = lookup "project-info" o2 ->
  lookup "venv-configs" o1 = lookup "venv-configs" o2 ->
  lookup "dependencies" o1 = lookup "dependencies" o2 ->
  forall dir command uf w,
    main dir command uf (Loaded (JObj o1)) w =
    main dir command uf (Loaded (JObj o2)) w.
Proof.
  intros N1 N2 Hi Hv Hd dir command uf w.
  assert (truthy (JObj o1) = true) as T1 by (destruct o1; [ congruence | reflexivity ]).
  assert (truthy (JObj o2) = true) as T2 by (destruct o2; [ congruence | reflexivity ]).
  unfold main. apply bind_ext. intros uc w1.
  simpl read_project_config. rewrite !bind_ret.
  destruct command; [ | | reflexivity ].
  - unfold info_command. rewrite T1, T2. unfold dict_get. now rewrite Hi, Hv.
  - unfold run_command. rewrite T1, T2.
    change (dict_get (JObj o1) "venv-configs" (JObj []))
      with (Ok (match lookup "venv-configs" o1 with Some v => v | None => JObj [] end)
              : result json).
    change (dict_get (JObj o1) "dependencies" (JObj []))
      with (Ok (match lookup "dependencies" o1 with Some v => v | None => JObj [] end)
              : result json).
    change (dict_get (JObj o1) "project-info" (JObj []))
      with (Ok (match lookup "project-info" o1 with Some v => v | None => JObj [] end)
              : result json).
    now rewrite Hi, Hv, Hd.
Qed.
End Uber.

(** * Concrete runs *)

Local Notation "'run_scripted'" := (run_command scripted scripted_run false).
Local Notation "'main_scripted'" := (main scripted scripted_run false "/opt/uber").
Local Notation "'run_on_disk'" := (run_command disk disk_run false).

(** A run in which the creation of [env-a] exits with status 1. *)
Lemma creation_failure_aborts_run_witness :
  let failing := VenvCreate (JStr "env-a") in
  let t1 := [Print [Str "Creating virtual environment: "; Fmt (JStr "env-a")]] in
  let t2 := [Print (error3 (JStr "env-a") (CalledProcessError failing 1))] in
  trace_of (run_scripted sample_project loud_tool "." [Completed 1]) =
    t1 ++ Exec failing (Completed 1) :: t2 /\
  never is_create t2 = true /\ never is_probe t2 = true /\
  never is_install t2 = true /\ never is_launch t2 = true /\
  outcome_of (run_scripted sample_project loud_tool "." [Completed 1]) = Ok tt.
Proof.
  cbv zeta. split; [ reflexivity | ].
  pose proof
    (creation_failure_aborts_run scripted scripted_run false sample_project
       loud_tool "." [Completed 1]
       [Print [Str "Creating virtual environment: "; Fmt (JStr "env-a")]]
       (JStr "env-a") (Completed 1)
       [Print (error3 (JStr "env-a")
                 (CalledProcessError (VenvCreate (JStr "env-a")) 1))]
       eq_refl ltac:(discriminate)) as H.
  destruct H as [A [B [C [D [E _]]]]]. repeat split; assumption.
Defined.

(** A run in which [requests] is absent and its installation exits with
    status 2, with [ignore.errors] set. *)
Lemma install_failure_aborts_run_witness :
  let pip := os_path_join ["env-a"; "bin"; "pip"] in
  let failing :=
    PipInstall pip [Val (JStr "requests"); Lit "=="; Val (JStr "2.31.0")] in
  let w := [Completed 0; Completed 1; Completed 2] in
  let t1 :=
    [Print [Str "Creating virtual environment: "; Fmt (JStr "env-a")];
     Exec (VenvCreate (JStr "env-a")) (Completed 0);
     Print [Str "Virtual environment '"; Fmt (JStr "env-a");
            Str "' created successfully."];
     Exec (PipShow pip "requests") (Completed 1);
     Print [Str "Installing "; Fmt (JStr "requests"); Str " in ";
            Fmt (JStr "env-a")]] in
  trace_of (run_scripted sample_project quiet_tool "." w) =
    t1 ++ Exec failing (Completed 2) :: [] /\
  outcome_of (run_scripted sample_project quiet_tool "." w) = Ok tt.
Proof.
  cbv zeta. split; [ reflexivity | ].
  pose proof
    (install_failure_aborts_run scripted scripted_run false sample_project
       quiet_tool "." [Completed 0; Completed 1; Completed 2]
       [Print [Str "Creating virtual environment: "; Fmt (JStr "env-a")];
        Exec (VenvCreate (JStr "env-a")) (Completed 0);
        Print [Str "Virtual environment '"; Fmt (JStr "env-a");
               Str "' created successfully."];
        Exec (PipShow (os_path_join ["env-a"; "bin"; "pip"]) "requests")
          (Completed 1);
        Print [Str "Installing "; Fmt (JStr "requests"); Str " in ";
               Fmt (JStr "env-a")]]
       (os_path_join ["env-a"; "bin"; "pip"])
       [Val (JStr "requests"); Lit "=="; Val (JStr "2.31.0")]
       (Completed 2) [] eq_refl ltac:(discriminate)) as H.
  destruct H as [_ [_ [_ [_ [O _]]]]]. exact O.
Defined.

(** C3. With no tool configuration beside the program, or a malformed
    one, the loader prints its error and hands [None] on; [info] still
    runs to completion, but [run] on a valid project raises
    [AttributeError] at [uber_config.get] before it creates, installs or
    launches anything, and the process exits with status 1.  With an
    empty tool configuration the same project is created and launched. *)
Theorem run_without_tool_config_raises :
  outcome_of (main_scripted "." CmdInfo FileNotFoundError (Loaded plain_project) [])
    = Ok tt /\
  outcome_of (main_scripted "." CmdRun FileNotFoundError (Loaded plain_project) [])
    = Raise AttributeError /\
  outcome_of (main_scripted "." CmdRun JSONDecodeError (Loaded plain_project) [])
    = Raise AttributeError /\
  never is_exec
    (trace_of (main_scripted "." CmdRun FileNotFoundError (Loaded plain_project) []))
    = true /\
  exit_status
    (outcome_of (main_scripted "." CmdRun FileNotFoundError (Loaded plain_project) []))
    = 1%Z /\
  outcome_of (main_scripted "." CmdRun (Loaded (JObj [])) (Loaded plain_project) [])
    = Ok tt /\
  existsb is_launch
    (trace_of (main_scripted "." CmdRun (Loaded (JObj [])) (Loaded plain_project) []))
    = true.
Proof. repeat split; reflexivity. Qed.



(** Two tool configurations that differ in [ignore.warnings] alone. *)
Lemma ignore_warnings_is_never_consulted_witness :
  let other :=
    JObj [("ignore", JObj [("warnings", JBool true); ("errors", JBool true);
                           ("info", JBool true)])] in
  differ_only_in_warnings quiet_tool other /\
  main_scripted "." CmdRun (Loaded quiet_tool) (Loaded sample_project) [Completed 3] =
  main_scripted "." CmdRun (Loaded other) (Loaded sample_project) [Completed 3].
Proof.
  cbv zeta.
  assert (differ_only_in_warnings quiet_tool
            (JObj [("ignore", JObj [("warnings", JBool true); ("errors", JBool true);
                                    ("info", JBool true)])])) as D.
  { unfold quiet_tool. eapply differ_in_warnings.
    - intros k Hk. simpl. apply String.eqb_neq in Hk. now rewrite Hk.
    - reflexivity.
    - reflexivity.
    - intros k Hk. simpl. apply String.eqb_neq in Hk. now rewrite Hk. }
  split; [ exact D | ].
  apply (ignore_warnings_is_never_consulted scripted scripted_run false "/opt/uber"
           _ _ D).
Defined.









(** * Concrete runs for the further properties *)

(** Both files missing, [run]. *)
Lemma absent_project_config_is_a_no_op_witness :
  exit_status
    (outcome_of (main_scripted "." CmdRun FileNotFoundError JSONDecodeError
                   [Completed 1])) = 0%Z /\
  world_of (main_scripted "." CmdRun FileNotFoundError JSONDecodeError
              [Completed 1]) = [Completed 1].
Proof.
  destruct (absent_project_config_is_a_no_op scripted scripted_run false "/opt/uber"
              "." CmdRun FileNotFoundError JSONDecodeError [Completed 1]
              eq_refl eq_refl eq_refl ltac:(discriminate)) as [E S].
  split; [ exact S | ]. rewrite E. reflexivity.
Defined.

(** A tool configuration that sets [ignore.errors], a missing project. *)
Lemma loader_errors_are_always_printed_witness :
  In (Print (project_error "." "Error [7]: Project configuration file '"
               "' not found."))
     (trace_of (main_scripted "." CmdRun (Loaded quiet_tool) FileNotFoundError [])).
Proof.
  destruct (loader_errors_are_always_printed scripted scripted_run false "/opt/uber"
              "." CmdRun []) as [_ B].
  exact (proj1 (B (Loaded quiet_tool) eq_refl)).
Defined.

(** A run whose creation exits with status 1. *)
Lemma called_process_error_never_escapes_witness :
  outcome_of (main_scripted "." CmdRun (Loaded loud_tool) (Loaded sample_project)
                [Completed 1])
  <> Raise (CalledProcessError (VenvCreate (JStr "env-a")) 1).
Proof.
  apply (called_process_error_never_escapes scripted scripted_run false "/opt/uber").
Defined.


(** A complete run of the sample project. *)
Lemma launch_uses_first_main_and_source_witness :
  exists venv_configs name project_info project_source,
    dict_get sample_project "venv-configs" (JObj []) = Ok (JObj venv_configs) /\
    first_main venv_configs = Some name /\ name <> EmptyString /\
    dict_get sample_project "project-info" (JObj []) = Ok project_info /\
    dict_get project_info "project-source" (JStr "main.py") = Ok project_source /\
    launch_command false "env-a" (JStr "main.py") =
    launch_command false name project_source.
Proof.
  apply (launch_uses_first_main_and_source scripted scripted_run false
           sample_project loud_tool "." []
           (launch_command false "env-a" (JStr "main.py")) (Completed 0)).
  - vm_compute. tauto.
  - reflexivity.
Defined.


(** The quiet tool configuration on a run with a skipped environment, a
    present dependency and a failing launch. *)
Lemma ignore_flags_silence_their_lines_witness :
  let t := trace_of (run_scripted sample_project quiet_tool "."
                       [Completed 0; Completed 0; Completed 7]) in
  never (coloured RED) t = true /\ never (coloured YELLOW) t = true.
Proof.
  cbv zeta.
  destruct (ignore_flags_silence_their_lines scripted scripted_run false
              sample_project quiet_tool "."
              [Completed 0; Completed 0; Completed 7]) as [A B].
  split; [ apply A | apply B ]; reflexivity.
Defined.


(** The installation of the pinned dependency of the sample project. *)
Lemma pip_serves_declared_dependencies_witness :
  exists venv_configs dependencies entry,
    dict_get sample_project "venv-configs" (JObj []) = Ok venv_configs /\
    dict_get sample_project "dependencies" (JObj []) = Ok (JObj dependencies) /\
    In entry dependencies /\
    serves false venv_configs entry
      (PipInstall (pip_of false "env-a")
         [Val (JStr "requests"); Lit "=="; Val (JStr "2.31.0")]).
Proof.
  apply (pip_serves_declared_dependencies scripted scripted_run false
           sample_project loud_tool "." [Completed 0; Completed 1]
           (PipInstall (pip_of false "env-a")
              [Val (JStr "requests"); Lit "=="; Val (JStr "2.31.0")])
           (Completed 0)).
  - vm_compute. tauto.
  - reflexivity.
Defined.

(** The same run: the probe exits with status 1, the installation
    follows. *)
Lemma installation_follows_a_failed_probe_witness :
  let t := trace_of (run_scripted sample_project loud_tool "."
                       [Completed 0; Completed 1]) in
  exists t0 package rc venv_name package_version,
    firstn 6 t =
      t0 ++ [Exec (PipShow (pip_of false "env-a") package) (Completed rc);
             Print [Str "Installing "; Fmt (JStr package); Str " in ";
                    Fmt venv_name]] /\
    rc <> 0%Z /\
    [Val (JStr "requests"); Lit "=="; Val (JStr "2.31.0")] =
    pip_requirement package package_version.
Proof.
  cbv zeta.
  apply (installation_follows_a_failed_probe scripted scripted_run false
           sample_project loud_tool "." [Completed 0; Completed 1]
           (firstn 6 (trace_of (run_scripted sample_project loud_tool "."
                                  [Completed 0; Completed 1])))
           (pip_of false "env-a")
           [Val (JStr "requests"); Lit "=="; Val (JStr "2.31.0")]
           (Completed 0)
           (skipn 7 (trace_of (run_scripted sample_project loud_tool "."
                                 [Completed 0; Completed 1])))).
  reflexivity.
Defined.

(** A run in which the probe finds the package. *)
Lemma present_dependency_is_reported_witness :
  let t := trace_of (run_scripted plain_project loud_tool "." []) in
  exists venv_name rest,
    skipn 4 t = Print (info_installed "requests" venv_name) :: rest /\
    match rest with
    | e :: _ => is_install e = false
    | [] => True
    end.
Proof.
  cbv zeta.
  apply (present_dependency_is_reported scripted scripted_run false
           plain_project loud_tool "." []
           (firstn 3 (trace_of (run_scripted plain_project loud_tool "." [])))
           (pip_of false "env-a") "requests"
           (skipn 4 (trace_of (run_scripted plain_project loud_tool "." [])))).
  reflexivity.
Defined.


(** The plain project, and the same with a field the program does not
    know put first. *)
Lemma unknown_fields_are_ignored_witness :
  let o :=
    [("venv-configs", JObj [("env-a", JObj [("main", JBool true)])]);
     ("dependencies",
      JObj [("requests",
             JObj [("venv", JStr "env-a"); ("version", JStr "2.31.0")])])] in
  main_scripted "." CmdRun (Loaded loud_tool) (Loaded (JObj o)) [Completed 1] =
  main_scripted "." CmdRun (Loaded loud_tool)
    (Loaded (JObj (("license", JStr "MIT") :: o))) [Completed 1].
Proof.
  cbv zeta.
  apply (unknown_fields_are_ignored scripted scripted_run false "/opt/uber");
    solve [ discriminate | reflexivity ].
Defined.
